(** * Meesho supplier-quality agent: tickets and alerts

    A shallow embedding of the three revisions of
    [meesho_ai_agent_with_tickets.py] and of [email_alerts.py].

    - Text is a [string] of bytes (the UTF-8 encoding of the Python [str]);
      [lower] maps the ASCII capitals only.  Every keyword the classifier
      looks for is ASCII and holds neither a k nor an i followed by a
      combining mark, so the keyword tests agree with Python's.
    - A complaint row (a pandas [Series] or the [dict] made from it) is a
      [gmap string string]; a [DataFrame] is its column labels and rows.
      Cells are text: missing values and numeric columns of the upload are
      not modelled.
    - A ticket is the nine-key [dict] built by [create_ticket_entry], in
      insertion order.
    - The clock, the environment variables, the SMTP server and the remote
      classifier form the [World]; the tickets file, the number of clock
      readings taken and the traces of alerts and UI messages form the
      [State], threaded through the monad [M] whose outcome is a returned
      value or a raised exception. *)

From Stdlib Require Import ZArith Ascii String.
From stdpp Require Import gmap strings list pretty sorting.

Open Scope string_scope.

(** ** Text *)

Definition lower_char (c : ascii) : ascii :=
  let n := nat_of_ascii c in
  if (65 <=? n)%nat && (n <=? 90)%nat then ascii_of_nat (n + 32) else c.

(** [str.lower()] *)
Fixpoint lower (s : string) : string :=
  match s with
  | EmptyString => EmptyString
  | String c s' => String (lower_char c) (lower s')
  end.

Fixpoint starts_with (p s : string) : bool :=
  match p, s with
  | EmptyString, _ => true
  | String a p', String b s' => if decide (a = b) then starts_with p' s' else false
  | String _ _, EmptyString => false
  end.

(** [needle in hay] on strings *)
Fixpoint contains (needle hay : string) : bool :=
  starts_with needle hay ||
  match hay with
  | EmptyString => false
  | String _ hay' => contains needle hay'
  end.

(** The relation [contains] decides. *)
Definition Substring (needle hay : string) : Prop :=
  ∃ pre post, hay = pre +:+ needle +:+ post.

Fixpoint join (sep : string) (l : list string) : string :=
  match l with
  | [] => EmptyString
  | [x] => x
  | x :: l' => x +:+ sep +:+ join sep l'
  end.


Definition DQUOTE : ascii := "034"%char.
Definition COMMA : ascii := ","%char.
Definition CR : ascii := "013"%char.
Definition LF : ascii := "010"%char.

(** ** Categories, as the strings stored in the [AI_Category] column *)

Definition Supplier_Issue : string := "Supplier Issue".
Definition Logistics_Issue : string := "Logistics Issue".
Definition Customer_Issue : string := "Customer Issue".
Definition Unknown : string := "Unknown".

(** ** Rows, frames and tickets *)

Record DataFrame := {
  columns : list string;
  rows : list (gmap string string)
}.

(** Every row of a frame has exactly the frame's columns. *)
Definition wf_frame (df : DataFrame) : Prop :=
  ∀ r, r ∈ rows df → ∀ k, is_Some (r !! k) ↔ k ∈ columns df.

Record Ticket := {
  Ticket_ID : string;
  Complaint_ID : string;
  Supplier : string;
  Product : string;
  Order_ID : string;
  Issue : string;
  Created_At : string;
  Status : string;
  Notes : string
}.

(** [ticket.values()] *)
Definition values (t : Ticket) : list string :=
  [Ticket_ID t; Complaint_ID t; Supplier t; Product t; Order_ID t;
   Issue t; Created_At t; Status t; Notes t].

Definition HEADER : list string :=
  ["Ticket_ID"; "Complaint_ID"; "Supplier"; "Product"; "Order_ID";
   "Issue"; "Created_At"; "Status"; "Notes"].

(** ** Exceptions, world and state *)

Inductive exn :=
| KeyError (key : string)
| IndexError
| SMTPException (text : string)
| OpenAIError (text : string).

(** [str(e)] *)
Definition str_exn (e : exn) : string :=
  match e with
  | KeyError k => "'" +:+ k +:+ "'"
  | IndexError => "single positional indexer is out-of-bounds"
  | SMTPException t => t
  | OpenAIError t => t
  end.

Inductive outcome (A : Type) :=
| Returns (a : A)
| Raises (e : exn).
Arguments Returns {A} a.
Arguments Raises {A} e.

(** One creation-time reading of the clock: [int(time.time()*1000)] and
    [datetime.now().isoformat(sep=' ', timespec='seconds')]. *)
Record instant := {
  epoch_ms : Z;
  local_time : string
}.

Record Mail := {
  mail_from : string;
  mail_to : string;
  mail_subject : string;
  mail_body : string
}.

Record World := {
  clock : nat → instant;
  SMTP_SERVER : option string;
  SMTP_PORT : Z;
  EMAIL_USERNAME : option string;
  EMAIL_PASSWORD : option string;
  USE_EMAIL_ALERTS : bool;
  EMAIL_USER : string;
  EMAIL_PASS : string;
  (* each SMTP operation succeeds ([None]) or raises *)
  smtp_connect : string → Z → option exn;
  smtp_starttls : option exn;
  smtp_login : string → string → option exn;
  smtp_sendmail : Mail → option exn;
  smtp_quit : option exn;
  smtp_ssl_connect : string → Z → option exn;
  (* the remote chat completion: its answer, or the exception it raises *)
  openai_chat : string → outcome string
}.

Inductive ui_event :=
| st_error (text : string)
| st_success (text : string)
| st_warning (text : string)
| st_write (text : string).

Record State := {
  time_reads : nat;
  tickets_file : string;
  alerts : list (Ticket * string);
  ui : list ui_event
}.

Definition M (A : Type) : Type := State → outcome A * State.

Global Instance M_ret : MRet M := λ A a s, (Returns a, s).

Global Instance M_bind : MBind M := λ A B k m s,
  match m s with
  | (Returns a, s') => k a s'
  | (Raises e, s') => (Raises e, s')
  end.

Definition raise {A} (e : exn) : M A := λ s, (Raises e, s).

(** [try: m  except Exception as e: h e] *)
Definition try_except {A} (m : M A) (h : exn → M A) : M A :=
  λ s, match m s with
       | (Returns a, s') => (Returns a, s')
       | (Raises e, s') => h e s'
       end.

(** A call to the outside world, returning or raising. *)
Definition call {A} (o : outcome A) : M A := λ s, (o, s).

(** An operation of the outside world that may raise. *)
Definition attempt (r : option exn) : M unit :=
  match r with
  | None => mret tt
  | Some e => raise e
  end.

Definition show (e : ui_event) : M unit :=
  λ s, (Returns tt,
        {| time_reads := time_reads s; tickets_file := tickets_file s;
           alerts := alerts s; ui := ui s ++ [e] |}).

(** Python truthiness of an environment variable. *)
Definition truthy (v : option string) : bool :=
  match v with
  | Some (String _ _) => true
  | _ => false
  end.

(** [row[key]] *)
Definition getitem (row : gmap string string) (key : string) : M string :=
  match row !! key with
  | Some v => mret v
  | None => raise (KeyError key)
  end.

(** [row.get(key, "")] *)
Definition get (row : gmap string string) (key : string) : string :=
  default "" (row !! key).

(** ** The tickets file: [csv.writer] with the default (excel) dialect *)

Definition NL : string := String LF EmptyString.
Definition CRLF : string := String CR (String LF EmptyString).

Definition special (c : ascii) : bool :=
  bool_decide (c = COMMA) || bool_decide (c = DQUOTE) ||
  bool_decide (c = CR) || bool_decide (c = LF).

Fixpoint needs_quotes (field : string) : bool :=
  match field with
  | EmptyString => false
  | String c field' => special c || needs_quotes field'
  end.

Fixpoint double_quotes (field : string) : string :=
  match field with
  | EmptyString => EmptyString
  | String c field' =>
      if decide (c = DQUOTE)
      then String DQUOTE (String DQUOTE (double_quotes field'))
      else String c (double_quotes field')
  end.

(** QUOTE_MINIMAL: a field is quoted when it holds the delimiter, the quote
    character or a character of the line terminator; quotes are doubled. *)
Definition write_field (field : string) : string :=
  if needs_quotes field
  then String DQUOTE (double_quotes field +:+ String DQUOTE EmptyString)
  else field.

(** [writer.writerow(fields)]; a row made of one empty field is written as
    a pair of quotes. *)
Definition writerow (fields : list string) : string :=
  match fields with
  | [EmptyString] => String DQUOTE (String DQUOTE CRLF)
  | _ => join "," (write_field <$> fields) +:+ CRLF
  end.

(** The module-level initialisation: the header is written when the file
    does not exist, an existing file is left as it is. *)
Definition init_tickets_file (existing : option string) : string :=
  match existing with
  | Some content => content
  | None => writerow HEADER
  end.

(** Opening the file in append mode and writing one row. *)
Definition append_row (file : string) (fields : list string) : string :=
  file +:+ writerow fields.

(** ** Ticket creation (the same function in the three revisions) *)

Definition create_ticket_entry (w : World) (complaint_row : gmap string string)
    (issue_text : string) : M Ticket :=
  λ s,
    let now := clock w (time_reads s) in
    let ticket_id := "T" +:+ pretty (epoch_ms now) in
    let created_at := local_time now in
    let ticket :=
      {| Ticket_ID := ticket_id;
         Complaint_ID := get complaint_row "Complaint_ID";
         Supplier := get complaint_row "Supplier";
         Product := get complaint_row "Product";
         Order_ID := get complaint_row "Order_ID";
         Issue := issue_text;
         Created_At := created_at;
         Status := "Open";
         Notes := "" |} in
    (Returns ticket,
     {| time_reads := S (time_reads s);
        tickets_file := append_row (tickets_file s) (values ticket);
        alerts := alerts s;
        ui := ui s |}).

(** ** Email alerts *)

(** The trace of calls of the per-ticket [send_email_alert]. *)
Definition log_alert (ticket : Ticket) (recipient : string) : M unit :=
  λ s, (Returns tt,
        {| time_reads := time_reads s; tickets_file := tickets_file s;
           alerts := alerts s ++ [(ticket, recipient)]; ui := ui s |}).

Definition configured (w : World) : bool :=
  truthy (SMTP_SERVER w) && truthy (EMAIL_USERNAME w) && truthy (EMAIL_PASSWORD w).

(** The SMTP conversation of the three revisions of the application:
    connect, [starttls], [login], [sendmail], [quit]. *)
Definition smtp_session (w : World) (msg : Mail) : M unit :=
  attempt (smtp_connect w (default "" (SMTP_SERVER w)) (SMTP_PORT w));;
  attempt (smtp_starttls w);;
  attempt (smtp_login w (default "" (EMAIL_USERNAME w)) (default "" (EMAIL_PASSWORD w)));;
  attempt (smtp_sendmail w msg);;
  attempt (smtp_quit w).

Definition ticket_body (ticket : Ticket) : string :=
  "New Supplier Ticket Created" +:+ NL +:+ NL +:+
  "Ticket ID: " +:+ Ticket_ID ticket +:+ NL +:+
  "Supplier: " +:+ Supplier ticket +:+ NL +:+
  "Complaint ID: " +:+ Complaint_ID ticket +:+ NL +:+
  "Product: " +:+ Product ticket +:+ NL +:+
  "Issue: " +:+ Issue ticket +:+ NL +:+
  "Created At: " +:+ Created_At ticket +:+ NL.

(** ** Frames *)

(** [df[key]]: the column, or [KeyError] *)
Definition getcol (df : DataFrame) (key : string) : M (list string) :=
  if decide (key ∈ columns df)
  then mapM (λ row, getitem row key) (rows df)
  else raise (KeyError key).

(** [df[key] = cells] *)
Definition setcol (df : DataFrame) (key : string) (cells : list string) : DataFrame :=
  {| columns := if decide (key ∈ columns df) then columns df else columns df ++ [key];
     rows := zip_with (λ row cell, <[key := cell]> row) (rows df) cells |}.

(** [df[[k1, ..., kn]]], evaluated for display only: [KeyError] when a
    label is missing. *)
Fixpoint select (df : DataFrame) (keys : list string) : M unit :=
  match keys with
  | [] => mret tt
  | key :: keys' =>
      if decide (key ∈ columns df) then select df keys' else raise (KeyError key)
  end.

(** [df[df[key] == v]]: the rows kept by the boolean mask *)
Definition where_eq (df : DataFrame) (key v : string) : M DataFrame :=
  cells ← getcol df key;
  mret {| columns := columns df;
          rows := (filter (λ rc, rc.2 = v) (zip (rows df) cells)).*1 |}.

(** [df.iloc[0].to_dict()] *)
Definition iloc0 (df : DataFrame) : M (gmap string string) :=
  match rows df with
  | row :: _ => mret row
  | [] => raise IndexError
  end.

(** The distinct values of a column, in order of first appearance. *)
Fixpoint first_seen (l : list string) : list string :=
  match l with
  | [] => []
  | x :: l' => x :: filter (λ y, y ≠ x) (first_seen l')
  end.

Definition occurrences (x : string) (l : list string) : nat :=
  length (filter (λ y, y = x) l).

Definition tally (l : list string) : list (string * nat) :=
  (λ x, (x, occurrences x l)) <$> first_seen l.

Definition by_count_desc (a b : string * nat) : Prop := (b.2 ≤ a.2)%nat.
Global Instance by_count_desc_dec : RelDecision by_count_desc :=
  λ a b, decide (b.2 ≤ a.2)%nat.

Definition by_key_asc (a b : string * nat) : Prop := String.leb a.1 b.1.
Global Instance by_key_asc_dec : RelDecision by_key_asc :=
  λ a b, decide (Is_true (String.leb a.1 b.1)).

(** [series.value_counts().items()]: each distinct value with its number
    of occurrences, most frequent first. *)
Definition value_counts (l : list string) : list (string * nat) :=
  merge_sort by_count_desc (tally l).

(** [df.groupby(by)[value].count().reset_index(name="count")]: one row for
    each distinct value of the [by] column, sorted by that value, with the
    number of cells of the [value] column in the group. *)
Definition groupby_count (df : DataFrame) (by_ value : string) : M (list (string * nat)) :=
  keys ← getcol df by_;
  _ ← getcol df value;
  mret (merge_sort by_key_asc (tally keys)).

(** [df["AI_Category"] = df["Message"].apply(classify)] *)
Definition classify_messages (classify : string → M string) (df : DataFrame) : M DataFrame :=
  messages ← getcol df "Message";
  categories ← mapM classify messages;
  mret (setcol df "AI_Category" categories).

(** ** The two ticket loops

    The loops are the same in the three revisions up to the alert sent
    after each ticket ([notify]) and the text of the aggregate ticket
    ([aggregate_text]). *)

Section Loops.
Variable w : World.
Variable notify : Ticket → M unit.
Variable aggregate_text : string → nat → string.

(** [for _, row in df.iterrows(): if row["AI_Category"] == "Supplier Issue": ...] *)
Fixpoint per_row_loop (rs : list (gmap string string)) (new_tickets : list Ticket)
    : M (list Ticket) :=
  match rs with
  | [] => mret new_tickets
  | row :: rs' =>
      category ← getitem row "AI_Category";
      if decide (category = Supplier_Issue) then
        ticket ← create_ticket_entry w row "Supplier Issue detected from complaint text";
        notify ticket;;
        per_row_loop rs' (new_tickets ++ [ticket])
      else per_row_loop rs' new_tickets
  end.

(** [for supplier, cnt in supplier_counts: if cnt >= auto_ticket_threshold: ...] *)
Fixpoint aggregate_loop (auto_ticket_threshold : nat) (df : DataFrame)
    (supplier_counts : list (string * nat)) (new_tickets : list Ticket)
    : M (list Ticket) :=
  match supplier_counts with
  | [] => mret new_tickets
  | (supplier, cnt) :: rest =>
      if decide (auto_ticket_threshold ≤ cnt)%nat then
        matching ← where_eq df "Supplier" supplier;
        sample_row ← iloc0 matching;
        ticket ← create_ticket_entry w sample_row (aggregate_text supplier cnt);
        notify ticket;;
        aggregate_loop auto_ticket_threshold df rest (new_tickets ++ [ticket])
      else aggregate_loop auto_ticket_threshold df rest new_tickets
  end.
End Loops.

(** [df[df["AI_Category"] == "Supplier Issue"]["Supplier"].value_counts()] *)
Definition strict_supplier_counts (df : DataFrame) : M (list (string * nat)) :=
  issues ← where_eq df "AI_Category" Supplier_Issue;
  suppliers ← getcol issues "Supplier";
  mret (value_counts suppliers).

(** ** First revision: keyword rules, alerts behind [USE_EMAIL_ALERTS] *)

Module V1.

Definition call_openai_classify (text : string) : string :=
  let text := lower text in
  if contains "damage" text || contains "wrong" text ||
     contains "missing" text || contains "color" text
  then Supplier_Issue
  else if contains "late" text || contains "courier" text || contains "delivery" text
  then Logistics_Issue
  else Customer_Issue.

(** The message built at the head of the [try] block. *)
Definition alert_mail (w : World) (ticket : Ticket) (recipient : string) : Mail :=
  {| mail_from := default "" (EMAIL_USERNAME w);
     mail_to := recipient;
     mail_subject := "[Meesho] New Supplier Ticket " +:+ Ticket_ID ticket;
     mail_body := ticket_body ticket |}.

Definition send_email_alert (w : World) (ticket : Ticket) (recipient : string)
    : M (bool * string) :=
  log_alert ticket recipient;;
  if negb (configured w) then mret (false, "Email settings not configured.")
  else
    try_except
      (smtp_session w (alert_mail w ticket recipient);;
       mret (true, "Email sent successfully."))
      (λ e, mret (false, str_exn e)).

(** [if email_alerts and USE_EMAIL_ALERTS: send_email_alert(ticket, email_recipient)] *)
Definition notify (w : World) (email_alerts : bool) (email_recipient : string)
    (ticket : Ticket) : M unit :=
  if email_alerts && USE_EMAIL_ALERTS w
  then send_email_alert w ticket email_recipient;; mret tt
  else mret tt.

Definition aggregate_text (supplier : string) (cnt : nat) : string :=
  "Aggregate alert: " +:+ pretty cnt +:+ " supplier issues in upload".

(** The body run when the button is pressed on an uploaded frame. *)
Definition run (w : World) (auto_ticket_threshold : nat) (email_alerts : bool)
    (email_recipient : string) (df : DataFrame) : M (list Ticket) :=
  df ← classify_messages (λ text, mret (call_openai_classify text)) df;
  select df ["Complaint_ID"; "Message"; "Supplier"; "AI_Category"];;
  supplier_counts ← strict_supplier_counts df;
  new_tickets ← per_row_loop w (notify w email_alerts email_recipient) (rows df) [];
  aggregate_loop w (notify w email_alerts email_recipient) aggregate_text
    auto_ticket_threshold df supplier_counts new_tickets.

End V1.

(** ** Second revision: remote classifier, required columns, threshold email *)

Module V2.

Definition ALERT_EMAIL : string := "yuvaneshbabu007@gmail.com".
Definition THRESHOLD : nat := 3.

Definition prompt (text : string) : string :=
  "You are an assistant that classifies customer complaint text into exactly one of these categories: " +:+
  "'Supplier Issue', 'Logistics Issue', or 'Customer Issue'." +:+ NL +:+ NL +:+
  "Return only the category text (no extra words)." +:+ NL +:+ NL +:+
  "Complaint: " +:+ String DQUOTE text +:+ String DQUOTE EmptyString.

(** The answer is stripped of surrounding white space in the source,
    which the two substring tests do not see. *)
Definition call_openai_classify (w : World) (text : string) : M string :=
  try_except
    (answer ← call (openai_chat w (prompt text));
     if contains "supplier" (lower answer) then mret Supplier_Issue
     else if contains "logistic" (lower answer) then mret Logistics_Issue
     else mret Customer_Issue)
    (λ e, show (st_warning ("OpenAI error: " +:+ str_exn e));; mret Unknown).

(** The message built at the head of the [try] block. *)
Definition alert_mail (w : World) (recipient supplier : string) (count : nat) : Mail :=
  {| mail_from := default "" (EMAIL_USERNAME w);
     mail_to := recipient;
     mail_subject := "[ALERT] Supplier " +:+ supplier +:+ " has " +:+ pretty count +:+ " issues!";
     mail_body :=
       "Hello," +:+ NL +:+ NL +:+
       "The supplier *" +:+ supplier +:+ "* has reached " +:+ pretty count +:+
       " complaints in this batch upload." +:+ NL +:+
       "This exceeds the threshold of " +:+ pretty THRESHOLD +:+ "." +:+ NL +:+ NL +:+
       "Please investigate immediately." +:+ NL +:+ NL +:+
       "Regards," +:+ NL +:+ "Meesho AI Quality Agent" |}.

Definition send_email_alert (w : World) (recipient supplier : string) (count : nat)
    : M (bool * string) :=
  if negb (configured w) then mret (false, "Email settings not configured.")
  else
    try_except
      (smtp_session w (alert_mail w recipient supplier count);;
       mret (true, "Email alert sent successfully."))
      (λ e, mret (false, str_exn e)).

Definition required_cols : list string :=
  ["Complaint_ID"; "Message"; "Supplier"; "Product"].

(** [for supplier, count in supplier_counts.items(): if count > THRESHOLD: ...] *)
Fixpoint threshold_emails (w : World) (supplier_counts : list (string * nat)) : M unit :=
  match supplier_counts with
  | [] => mret tt
  | (supplier, count) :: rest =>
      (if decide (THRESHOLD < count)%nat then
         r ← send_email_alert w ALERT_EMAIL supplier count;
         show (st_write ("📧 Email to " +:+ ALERT_EMAIL +:+ ": " +:+ r.2))
       else mret tt);;
      threshold_emails w rest
  end.

Definition aggregate_text (supplier : string) (cnt : nat) : string :=
  "Aggregate alert: " +:+ pretty cnt +:+ " supplier issues in upload".

(** The upload block: [None] when the frame is refused, else the tickets
    made when the button is pressed.  The refusal message joins the
    members of a Python set, whose order is not fixed; the source order
    is taken here. *)
Definition run (w : World) (auto_ticket_threshold : nat) (df : DataFrame)
    : M (option (list Ticket)) :=
  if negb (bool_decide (required_cols ⊆ columns df)) then
    show (st_error ("Uploaded CSV must contain columns: " +:+ join ", " required_cols));;
    mret None
  else
    df ← classify_messages (call_openai_classify w) df;
    select df ["Complaint_ID"; "Message"; "Supplier"; "AI_Category"];;
    supplier_counts ← strict_supplier_counts df;
    threshold_emails w supplier_counts;;
    new_tickets ← per_row_loop w (λ _, mret tt) (rows df) [];
    new_tickets ← aggregate_loop w (λ _, mret tt) aggregate_text
      auto_ticket_threshold df supplier_counts new_tickets;
    mret (Some new_tickets).

End V2.

(** ** Third revision: keyword rules with [defect], all complaints counted *)

Module V3.

Definition call_openai_classify (text : string) : string :=
  let text := lower text in
  if existsb (λ word, contains word text) ["damage"; "wrong"; "missing"; "color"; "defect"]
  then Supplier_Issue
  else if existsb (λ word, contains word text) ["late"; "courier"; "delivery"]
  then Logistics_Issue
  else Customer_Issue.

(** The message built at the head of the [try] block. *)
Definition alert_mail (w : World) (ticket : Ticket) (recipient : string) : Mail :=
  {| mail_from := default "" (EMAIL_USERNAME w);
     mail_to := recipient;
     mail_subject :=
       "[Meesho Alert] Supplier " +:+ Supplier ticket +:+ " - " +:+ Issue ticket;
     mail_body := ticket_body ticket |}.

Definition send_email_alert (w : World) (ticket : Ticket) (recipient : string)
    : M (bool * string) :=
  log_alert ticket recipient;;
  if negb (configured w) then mret (false, "Email settings not configured.")
  else
    try_except
      (smtp_session w (alert_mail w ticket recipient);;
       mret (true, "Email sent successfully."))
      (λ e, mret (false, str_exn e)).

(** [if email_alerts: send_email_alert(ticket, email_recipient)] *)
Definition notify (w : World) (email_alerts : bool) (email_recipient : string)
    (ticket : Ticket) : M unit :=
  if email_alerts
  then send_email_alert w ticket email_recipient;; mret tt
  else mret tt.

Definition aggregate_text (supplier : string) (cnt : nat) : string :=
  "Aggregate alert: " +:+ pretty cnt +:+ " total complaints for " +:+ supplier.

Definition run (w : World) (auto_ticket_threshold : nat) (email_alerts : bool)
    (email_recipient : string) (df : DataFrame) : M (list Ticket) :=
  df ← classify_messages (λ text, mret (call_openai_classify text)) df;
  select df ["Complaint_ID"; "Message"; "Supplier"; "AI_Category"];;
  supplier_counts ← groupby_count df "Supplier" "Complaint_ID";
  new_tickets ← per_row_loop w (notify w email_alerts email_recipient) (rows df) [];
  aggregate_loop w (notify w email_alerts email_recipient) aggregate_text
    auto_ticket_threshold df supplier_counts new_tickets.

End V3.

(** ** [email_alerts.py] *)

Module EmailAlerts.

(** Leaving the [with] block closes the connection, whether the body
    raised or not; what the closing raises replaces the body's outcome. *)
Definition closing {A} (w : World) (body : M A) : M A :=
  λ s, match body s with
       | (Returns a, s') =>
           match smtp_quit w with
           | None => (Returns a, s')
           | Some e => (Raises e, s')
           end
       | (Raises e, s') =>
           match smtp_quit w with
           | None => (Raises e, s')
           | Some e' => (Raises e', s')
           end
       end.

(** [with smtplib.SMTP_SSL(host, port) as server: body] *)
Definition with_smtp_ssl {A} (w : World) (host : string) (port : Z) (body : M A) : M A :=
  attempt (smtp_ssl_connect w host port);;
  closing w body.

Definition alert_mail (w : World) (to_email supplier_name : string)
    (issue_count : nat) : Mail :=
  {| mail_from := EMAIL_USER w;
     mail_to := to_email;
     mail_subject :=
       "⚠️ Supplier Alert: " +:+ supplier_name +:+ " exceeded issue threshold";
     mail_body :=
       NL +:+ "    Hi Team," +:+ NL +:+ NL +:+
       "    The supplier **" +:+ supplier_name +:+ "** has reported **" +:+
       pretty issue_count +:+ " issues** in the latest upload." +:+ NL +:+ NL +:+
       "    Please review the supplier performance and take necessary action." +:+ NL +:+ NL +:+
       "    Regards," +:+ NL +:+
       "    Meesho Supplier Quality AI Agent" +:+ NL +:+ "    " |}.

(** The function has no [return]: its value is Python's [None]. *)
Definition send_email_alert (w : World) (to_email supplier_name : string)
    (issue_count : nat) : M (option (bool * string)) :=
  try_except
    (with_smtp_ssl w "smtp.gmail.com" 465
       (attempt (smtp_login w (EMAIL_USER w) (EMAIL_PASS w));;
        attempt (smtp_sendmail w (alert_mail w to_email supplier_name issue_count)));;
     show (st_success ("✅ Email sent to " +:+ to_email +:+ " for supplier " +:+ supplier_name)))
    (λ e, show (st_error ("❌ Error sending email: " +:+ str_exn e)));;
  mret None.

End EmailAlerts.

(** ** Reading the tickets file back: [pd.read_csv(TICKETS_FILE)]

    The tokenizer follows the state machine of the reader's C parser with
    its defaults: comma delimiter, doubled quotes, blank lines skipped,
    lines ended by LF, CR or CR LF. *)













(** A cell read back: a missing value, or a value with the text it was
    read from.  The reader's conversion of a column that holds only
    numbers or booleans is not modelled: such a cell keeps its text. *)
Inductive cell :=
| NaN
| Text (s : string).




(** ** Notions used to state the properties *)

(** The exception raised by the first operation that fails, if any. *)
Fixpoint first_failure (steps : list (option exn)) : option exn :=
  match steps with
  | [] => None
  | Some e :: _ => Some e
  | None :: steps' => first_failure steps'
  end.

(** What the SMTP conversation of the application raises for a message. *)
Definition session_failure (w : World) (msg : Mail) : option exn :=
  first_failure
    [smtp_connect w (default "" (SMTP_SERVER w)) (SMTP_PORT w);
     smtp_starttls w;
     smtp_login w (default "" (EMAIL_USERNAME w)) (default "" (EMAIL_PASSWORD w));
     smtp_sendmail w msg;
     smtp_quit w].

(** The answer of the application's notifier for a message. *)
Definition alert_answer (w : World) (msg : Mail) (sent : string) : bool * string :=
  if negb (configured w) then (false, "Email settings not configured.")
  else match session_failure w msg with
       | None => (true, sent)
       | Some e => (false, str_exn e)
       end.

Definition alert_logged (ticket : Ticket) (recipient : string) (s : State) : State :=
  {| time_reads := time_reads s; tickets_file := tickets_file s;
     alerts := alerts s ++ [(ticket, recipient)]; ui := ui s |}.



(** The ticket made at the clock reading [now]. *)
Definition ticket_of (now : instant) (row : gmap string string) (issue : string) : Ticket :=
  {| Ticket_ID := "T" +:+ pretty (epoch_ms now);
     Complaint_ID := get row "Complaint_ID";
     Supplier := get row "Supplier";
     Product := get row "Product";
     Order_ID := get row "Order_ID";
     Issue := issue;
     Created_At := local_time now;
     Status := "Open";
     Notes := "" |}.

(** The state after a ticket was made and, when [gate] holds, its alert
    sent to [recipient]. *)
Definition ticketed (gate : bool) (recipient : string) (t : Ticket) (s : State) : State :=
  {| time_reads := S (time_reads s);
     tickets_file := append_row (tickets_file s) (values t);
     alerts := alerts s ++ (if gate then [(t, recipient)] else []);
     ui := ui s |}.

(** Making one ticket after the other for a list of (row, issue text). *)
Fixpoint after_jobs (w : World) (gate : bool) (recipient : string)
    (jobs : list (gmap string string * string)) (s : State) : list Ticket * State :=
  match jobs with
  | [] => ([], s)
  | (row, issue) :: jobs' =>
      let t := ticket_of (clock w (time_reads s)) row issue in
      let r := after_jobs w gate recipient jobs' (ticketed gate recipient t s) in
      (t :: r.1, r.2)
  end.

(** The row with its category, as stored by [classify_messages]. *)
Definition annotate (classify : string → string) (row : gmap string string)
    : gmap string string :=
  <["AI_Category" := classify (get row "Message")]> row.

Definition classified_frame (classify : string → string) (df : DataFrame) : DataFrame :=
  setcol df "AI_Category" ((λ row, classify (get row "Message")) <$> rows df).

(** The tickets to make for the rows, in order. *)
Definition per_row_jobs (rs : list (gmap string string))
    : list (gmap string string * string) :=
  (λ row, (row, "Supplier Issue detected from complaint text")) <$>
  filter (λ row, get row "AI_Category" = Supplier_Issue) rs.

(** The first row of a supplier in the frame. *)
Definition sample_row (df : DataFrame) (supplier : string) : gmap string string :=
  default ∅ (head (filter (λ row, get row "Supplier" = supplier) (rows df))).

(** The aggregate tickets to make for the counted suppliers, in order. *)
Definition aggregate_jobs (aggregate_text : string → nat → string)
    (auto_ticket_threshold : nat) (df : DataFrame) (supplier_counts : list (string * nat))
    : list (gmap string string * string) :=
  (λ p, (sample_row df p.1, aggregate_text p.1 p.2)) <$>
  filter (λ p, auto_ticket_threshold ≤ p.2)%nat supplier_counts.

(** The counts used by the first two revisions and by the third one, on a
    frame that holds the categories. *)
Definition strict_counts (df : DataFrame) : list (string * nat) :=
  value_counts ((λ row, get row "Supplier") <$>
                filter (λ row, get row "AI_Category" = Supplier_Issue) (rows df)).

Definition total_counts (df : DataFrame) : list (string * nat) :=
  merge_sort by_key_asc (tally ((λ row, get row "Supplier") <$> rows df)).

(** All the tickets a run has to make, in order. *)
Definition run_jobs (aggregate_text : string → nat → string)
    (auto_ticket_threshold : nat) (df : DataFrame) (supplier_counts : list (string * nat))
    : list (gmap string string * string) :=
  per_row_jobs (rows df) ++
  aggregate_jobs aggregate_text auto_ticket_threshold df supplier_counts.

Definition has_columns (keys : list string) (df : DataFrame) : Prop :=
  ∀ k, k ∈ keys → k ∈ columns df.

(** Successive readings of the clock differ by at least one millisecond. *)
Definition clock_increasing (w : World) : Prop :=
  ∀ i j, (i < j)%nat → (epoch_ms (clock w i) < epoch_ms (clock w j))%Z.

(** The identifier made from a millisecond reading. *)
Definition ticket_id_of (ms : Z) : string := "T" +:+ pretty ms.






Definition SUPPLIER_KEYWORDS : list string :=
  ["damage"; "wrong"; "missing"; "color"; "defect"].

Definition LOGISTICS_KEYWORDS : list string :=
  ["late"; "courier"; "delivery"].

(** ** Concrete inputs *)

(** A world whose clock advances by one millisecond at each reading, with
    no mail account set and [USE_EMAIL_ALERTS] off. *)
Definition quiet_world : World :=
  {| clock := λ n, {| epoch_ms := 1700000000000 + Z.of_nat n;
                      local_time := "2023-11-14 22:13:20" |};
     SMTP_SERVER := Some "smtp.gmail.com";
     SMTP_PORT := 587;
     EMAIL_USERNAME := None;
     EMAIL_PASSWORD := None;
     USE_EMAIL_ALERTS := false;
     EMAIL_USER := "agent@example.com";
     EMAIL_PASS := "secret";
     smtp_connect := λ _ _, None;
     smtp_starttls := None;
     smtp_login := λ _ _, None;
     smtp_sendmail := λ _, None;
     smtp_quit := None;
     smtp_ssl_connect := λ _ _, None;
     openai_chat := λ _, Returns "Supplier Issue" |}.

(** The same world with a clock that stays within one millisecond. *)
Definition frozen_world : World :=
  {| clock := λ _, {| epoch_ms := 1700000000000;
                      local_time := "2023-11-14 22:13:20" |};
     SMTP_SERVER := SMTP_SERVER quiet_world;
     SMTP_PORT := SMTP_PORT quiet_world;
     EMAIL_USERNAME := EMAIL_USERNAME quiet_world;
     EMAIL_PASSWORD := EMAIL_PASSWORD quiet_world;
     USE_EMAIL_ALERTS := USE_EMAIL_ALERTS quiet_world;
     EMAIL_USER := EMAIL_USER quiet_world;
     EMAIL_PASS := EMAIL_PASS quiet_world;
     smtp_connect := smtp_connect quiet_world;
     smtp_starttls := smtp_starttls quiet_world;
     smtp_login := smtp_login quiet_world;
     smtp_sendmail := smtp_sendmail quiet_world;
     smtp_quit := smtp_quit quiet_world;
     smtp_ssl_connect := smtp_ssl_connect quiet_world;
     openai_chat := openai_chat quiet_world |}.

(** The same world with a server that refuses the login. *)
Definition refusing_world : World :=
  {| clock := clock quiet_world;
     SMTP_SERVER := SMTP_SERVER quiet_world;
     SMTP_PORT := SMTP_PORT quiet_world;
     EMAIL_USERNAME := Some "agent@example.com";
     EMAIL_PASSWORD := Some "secret";
     USE_EMAIL_ALERTS := true;
     EMAIL_USER := EMAIL_USER quiet_world;
     EMAIL_PASS := EMAIL_PASS quiet_world;
     smtp_connect := smtp_connect quiet_world;
     smtp_starttls := smtp_starttls quiet_world;
     smtp_login := λ _ _, Some (SMTPException "(535, b'5.7.8 Username and Password not accepted')");
     smtp_sendmail := smtp_sendmail quiet_world;
     smtp_quit := smtp_quit quiet_world;
     smtp_ssl_connect := smtp_ssl_connect quiet_world;
     openai_chat := openai_chat quiet_world |}.

(** A fresh tickets file. *)
Definition fresh_state : State :=
  {| time_reads := 0; tickets_file := init_tickets_file None; alerts := []; ui := [] |}.

Definition complaint (complaint_id message supplier product : string)
    : gmap string string :=
  <["Complaint_ID" := complaint_id]>
    (<["Message" := message]> (<["Supplier" := supplier]> (<["Product" := product]> ∅))).

(** Two complaints about one supplier, of which one is a supplier issue. *)
Definition acme_frame : DataFrame :=
  {| columns := ["Complaint_ID"; "Message"; "Supplier"; "Product"];
     rows := [complaint "C1" "Wrong color received" "Acme" "Shoe";
              complaint "C2" "Arrived late" "Acme" "Shoe"] |}.

(** An upload without the Product column. *)
Definition no_product_frame : DataFrame :=
  {| columns := ["Complaint_ID"; "Message"; "Supplier"];
     rows := [<["Complaint_ID" := "C1"]>
                (<["Message" := "Wrong color received"]> (<["Supplier" := "Acme"]> ∅))] |}.

(** A row that only says which complaint it is. *)
Definition bare_row : gmap string string := <["Complaint_ID" := "C7"]> ∅.

(** A ticket, to send alerts about. *)
Definition acme_ticket : Ticket :=
  ticket_of (clock quiet_world 0) (complaint "C1" "Wrong color received" "Acme" "Shoe")
    "Supplier Issue detected from complaint text".

(** ** Further notions *)

(** The keywords of the first revision's supplier rule. *)
Definition V1_SUPPLIER_KEYWORDS : list string :=
  ["damage"; "wrong"; "missing"; "color"].

(** The category the second revision gives a message: the answer of the
    remote call normalised, or [Unknown] when the call raises. *)
Definition remote_category (w : World) (text : string) : string :=
  match openai_chat w (V2.prompt text) with
  | Returns answer =>
      if contains "supplier" (lower answer) then Supplier_Issue
      else if contains "logistic" (lower answer) then Logistics_Issue
      else Customer_Issue
  | Raises _ => Unknown
  end.


(** The state with more messages shown. *)
Definition shown (events : list ui_event) (s : State) : State :=
  {| time_reads := time_reads s; tickets_file := tickets_file s;
     alerts := alerts s; ui := ui s ++ events |}.

(** The tickets file of the second state continues that of the first. *)
Definition file_grows (s s' : State) : Prop :=
  ∃ suffix, tickets_file s' = tickets_file s +:+ suffix.


(** An upload without the Supplier column. *)
Definition no_supplier_frame : DataFrame :=
  {| columns := ["Complaint_ID"; "Message"; "Product"];
     rows := [<["Complaint_ID" := "C1"]>
                (<["Message" := "Wrong color received"]> (<["Product" := "Shoe"]> ∅))] |}.




(** A computation that only ever appends to the tickets file, whether it
    returns or raises. *)
Definition appends_only {A} (m : M A) : Prop :=
  ∀ s, file_grows s (m s).2.



(** * Properties *)

Open Scope list_scope.

(** ** Text *)

Lemma str_app_cons a s t : String a s +:+ t = String a (s +:+ t).
Proof. reflexivity. Qed.


Lemma str_app_assoc s t u : (s +:+ t) +:+ u = s +:+ t +:+ u.
Proof. induction s as [|a s IH]; [done|]. rewrite !str_app_cons. by f_equal. Qed.

Lemma str_app_nil_r s : s +:+ EmptyString = s.
Proof. induction s as [|a s IH]; [done|]. rewrite str_app_cons. by f_equal. Qed.

Lemma starts_with_spec p s :
  starts_with p s = true ↔ ∃ post, s = p +:+ post.
Proof.
  revert s. induction p as [|a p IH]; intros s; simpl.
  - split; [intros _; by exists s | done].
  - destruct s as [|b s].
    + split; [done | intros [post H]; rewrite str_app_cons in H; discriminate].
    + destruct (decide (a = b)) as [->|Hab].
      * rewrite IH. split; intros [post H]; exists post;
          rewrite ?str_app_cons in *; congruence.
      * split; [done | intros [post H]; rewrite str_app_cons in H; congruence].
Qed.

Lemma contains_spec needle hay :
  contains needle hay = true ↔ Substring needle hay.
Proof.
  split.
  - induction hay as [|c hay IH]; simpl; rewrite orb_true_iff; intros [H|H].
    + apply starts_with_spec in H as [post ->]. by exists EmptyString, post.
    + done.
    + apply starts_with_spec in H as [post ->]. by exists EmptyString, post.
    + destruct (IH H) as (pre & post & ->). by exists (String c pre), post.
  - intros (pre & post & ->). induction pre as [|c pre IH]; simpl.
    + destruct (needle +:+ post) eqn:E; simpl;
        (apply orb_true_iff; left; apply starts_with_spec; exists post; by rewrite <- E).
    + apply orb_true_iff. by right.
Qed.

Lemma contains_false needle hay :
  ¬ Substring needle hay → contains needle hay = false.
Proof.
  intros H. destruct (contains needle hay) eqn:E; [|done].
  by apply contains_spec in E.
Qed.

(** ** The rule-based classifier *)

(** In the third revision a supplier keyword decides, whatever else the
    message holds. *)
Lemma V3_supplier_keyword_wins (msg word : string) :
  word ∈ SUPPLIER_KEYWORDS →
  Substring word (lower msg) →
  V3.call_openai_classify msg = Supplier_Issue.
Proof.
  intros Hin Hsub. apply contains_spec in Hsub.
  unfold V3.call_openai_classify, SUPPLIER_KEYWORDS in *. simpl.
  repeat (apply elem_of_cons in Hin as [->|Hin];
          [rewrite Hsub, ?orb_true_r; reflexivity|]).
  by apply elem_of_nil in Hin.
Qed.

(** C2: The first revision has no rule for [defect]: a message whose only
    supplier keyword is that one is a customer issue there, while the third
    revision classifies it as a supplier issue. *)
Theorem C2_defect_not_matched_in_first_revision :
  V1.call_openai_classify "Item is defective" = Customer_Issue ∧
  Substring "defect" (lower "Item is defective") ∧
  V3.call_openai_classify "Item is defective" = Supplier_Issue.
Proof.
  split; [reflexivity|]. split; [|reflexivity].
  by exists "item is ", "ive".
Qed.

(** C9: A message that, lowercased, holds no supplier keyword and no
    logistics keyword is a customer issue for both rule-based classifiers,
    and neither of them ever answers [Unknown]. *)
Theorem C9_no_keyword_is_customer_issue (msg : string) :
  ((∀ word : string, word ∈ (SUPPLIER_KEYWORDS ++ LOGISTICS_KEYWORDS)%list →
            ¬ Substring word (lower msg)) →
   V1.call_openai_classify msg = Customer_Issue ∧
   V3.call_openai_classify msg = Customer_Issue) ∧
  V1.call_openai_classify msg ≠ Unknown ∧
  V3.call_openai_classify msg ≠ Unknown.
Proof.
  split.
  - intros H.
    assert (Hc : ∀ word : string, word ∈ (SUPPLIER_KEYWORDS ++ LOGISTICS_KEYWORDS)%list →
                         contains word (lower msg) = false).
    { intros word Hin. apply contains_false. by apply H. }
    unfold V1.call_openai_classify, V3.call_openai_classify. simpl.
    rewrite !Hc; [done | unfold SUPPLIER_KEYWORDS, LOGISTICS_KEYWORDS; simpl;
                         rewrite ?elem_of_cons; tauto ..].
  - unfold V1.call_openai_classify, V3.call_openai_classify.
    split; repeat case_match; done.
Qed.

Lemma C9_no_keyword_is_customer_issue_witness :
  V1.call_openai_classify "I changed my mind" = Customer_Issue ∧
  V3.call_openai_classify "I changed my mind" = Customer_Issue.
Proof.
  apply (C9_no_keyword_is_customer_issue "I changed my mind").
  intros word Hin Hsub. apply contains_spec in Hsub.
  unfold SUPPLIER_KEYWORDS, LOGISTICS_KEYWORDS in Hin. simpl in Hin.
  repeat (apply elem_of_cons in Hin as [->|Hin]; [vm_compute in Hsub; discriminate|]).
  by apply elem_of_nil in Hin.
Defined.

(** ** Running the monad *)

Lemma run_bind {A B} (m : M A) (k : A → M B) s :
  (m ≫= k) s =
  match m s with
  | (Returns a, s') => k a s'
  | (Raises e, s') => (Raises e, s')
  end.
Proof. reflexivity. Qed.

Lemma run_bind_returns {A B} (m : M A) (k : A → M B) s a s' :
  m s = (Returns a, s') → (m ≫= k) s = k a s'.
Proof. intros H. by rewrite run_bind, H. Qed.

Lemma run_bind_raises {A B} (m : M A) (k : A → M B) s e s' :
  m s = (Raises e, s') → (m ≫= k) s = (Raises e, s').
Proof. intros H. by rewrite run_bind, H. Qed.

Lemma run_ret {A} (a : A) s : (mret a : M A) s = (Returns a, s).
Proof. reflexivity. Qed.

Ltac run_monad :=
  cbv [mbind M_bind mret M_ret try_except attempt raise call log_alert show].

(** ** Ticket creation *)

Lemma create_ticket_entry_run w row issue s :
  create_ticket_entry w row issue s =
  (Returns (ticket_of (clock w (time_reads s)) row issue),
   ticketed false "" (ticket_of (clock w (time_reads s)) row issue) s).
Proof.
  unfold create_ticket_entry, ticketed, ticket_of. simpl.
  by rewrite app_nil_r.
Qed.

Lemma get_absent (row : gmap string string) key : row !! key = None → get row key = "".
Proof. unfold get. by intros ->. Qed.

(** C10: Creating a ticket returns for every row: a field among
    Complaint_ID, Supplier, Product and Order_ID that the row does not have
    is the empty string in the ticket, whose Status is Open and whose Notes
    are empty. *)
Theorem C10_ticket_from_partial_row w (row : gmap string string) issue s :
  ∃ ticket s',
    create_ticket_entry w row issue s = (Returns ticket, s') ∧
    (row !! "Complaint_ID" = None → Complaint_ID ticket = "") ∧
    (row !! "Supplier" = None → Supplier ticket = "") ∧
    (row !! "Product" = None → Product ticket = "") ∧
    (row !! "Order_ID" = None → Order_ID ticket = "") ∧
    Status ticket = "Open" ∧
    Notes ticket = "".
Proof.
  eexists _, _. split; [reflexivity|]. simpl.
  repeat split; try apply get_absent; done.
Qed.

Lemma C10_ticket_from_partial_row_witness :
  ∃ ticket s',
    create_ticket_entry quiet_world bare_row "Supplier Issue detected from complaint text"
      fresh_state = (Returns ticket, s') ∧
    Complaint_ID ticket = "C7" ∧ Supplier ticket = "" ∧ Product ticket = "" ∧
    Order_ID ticket = "" ∧ Status ticket = "Open" ∧ Notes ticket = "".
Proof.
  destruct (C10_ticket_from_partial_row quiet_world bare_row
              "Supplier Issue detected from complaint text" fresh_state)
    as (ticket & s' & Hrun & _ & Hs & Hp & Ho & Hst & Hn).
  exists ticket, s'. split; [done|].
  split; [by injection Hrun as <- _|].
  split; [by apply Hs|]. split; [by apply Hp|]. split; [by apply Ho|]. done.
Defined.

(** ** Email alerts *)

Lemma smtp_session_run w msg s :
  smtp_session w msg s =
  match session_failure w msg with
  | None => (Returns tt, s)
  | Some e => (Raises e, s)
  end.
Proof.
  unfold smtp_session, session_failure. run_monad. simpl.
  destruct (smtp_connect w _ _); [done|].
  destruct (smtp_starttls w); [done|].
  destruct (smtp_login w _ _); [done|].
  destruct (smtp_sendmail w msg); [done|].
  by destruct (smtp_quit w).
Qed.

Lemma V1_send_email_alert_run w ticket recipient s :
  V1.send_email_alert w ticket recipient s =
  (Returns (alert_answer w (V1.alert_mail w ticket recipient) "Email sent successfully."),
   alert_logged ticket recipient s).
Proof.
  unfold V1.send_email_alert, alert_answer. run_monad.
  destruct (configured w); simpl; [|done].
  run_monad. rewrite smtp_session_run.
  by destruct (session_failure w _).
Qed.

Lemma V3_send_email_alert_run w ticket recipient s :
  V3.send_email_alert w ticket recipient s =
  (Returns (alert_answer w (V3.alert_mail w ticket recipient) "Email sent successfully."),
   alert_logged ticket recipient s).
Proof.
  unfold V3.send_email_alert, alert_answer. run_monad.
  destruct (configured w); simpl; [|done].
  run_monad. rewrite smtp_session_run.
  by destruct (session_failure w _).
Qed.

Lemma V2_send_email_alert_run w recipient supplier count s :
  V2.send_email_alert w recipient supplier count s =
  (Returns (alert_answer w (V2.alert_mail w recipient supplier count)
              "Email alert sent successfully."), s).
Proof.
  unfold V2.send_email_alert, alert_answer.
  destruct (configured w); simpl; [|done].
  run_monad. rewrite smtp_session_run.
  by destruct (session_failure w _).
Qed.

Lemma EmailAlerts_send_email_alert_run w to_email supplier_name issue_count s :
  ∃ s', EmailAlerts.send_email_alert w to_email supplier_name issue_count s
        = (Returns None, s') ∧
        time_reads s' = time_reads s ∧ tickets_file s' = tickets_file s.
Proof.
  unfold EmailAlerts.send_email_alert, EmailAlerts.with_smtp_ssl, EmailAlerts.closing.
  run_monad.
  destruct (smtp_ssl_connect w _ _); simpl; [by eexists|].
  run_monad.
  destruct (smtp_login w _ _); simpl;
    [destruct (smtp_quit w); simpl; by eexists|].
  destruct (smtp_sendmail w _); simpl;
    destruct (smtp_quit w); simpl; by eexists.
Qed.

(** C6: The application's [send_email_alert] (in its three revisions)
    returns for every ticket, recipient, world and state, never raising:
    [(False, "Email settings not configured.")] when the settings are
    missing, [(False, str(e))] when an SMTP operation raises [e], and
    [(True, detail)] when all succeed; the function of [email_alerts.py]
    never raises either and returns [None]. *)
Theorem C6_notifier_never_raises w ticket recipient supplier count s :
  (∃ ok detail s',
     V1.send_email_alert w ticket recipient s = (Returns (ok, detail), s') ∧
     tickets_file s' = tickets_file s ∧
     (configured w = false → ok = false ∧ detail = "Email settings not configured.") ∧
     (configured w = true →
      ∀ e, session_failure w (V1.alert_mail w ticket recipient) = Some e →
           ok = false ∧ detail = str_exn e) ∧
     (configured w = true →
      session_failure w (V1.alert_mail w ticket recipient) = None →
      ok = true ∧ detail = "Email sent successfully.")) ∧
  (∃ ok detail s',
     V3.send_email_alert w ticket recipient s = (Returns (ok, detail), s') ∧
     tickets_file s' = tickets_file s ∧
     (configured w = false → ok = false ∧ detail = "Email settings not configured.") ∧
     (configured w = true →
      ∀ e, session_failure w (V3.alert_mail w ticket recipient) = Some e →
           ok = false ∧ detail = str_exn e) ∧
     (configured w = true →
      session_failure w (V3.alert_mail w ticket recipient) = None →
      ok = true ∧ detail = "Email sent successfully.")) ∧
  (∃ ok detail,
     V2.send_email_alert w recipient supplier count s = (Returns (ok, detail), s) ∧
     (configured w = false → ok = false ∧ detail = "Email settings not configured.") ∧
     (configured w = true →
      ∀ e, session_failure w (V2.alert_mail w recipient supplier count) = Some e →
           ok = false ∧ detail = str_exn e) ∧
     (configured w = true →
      session_failure w (V2.alert_mail w recipient supplier count) = None →
      ok = true ∧ detail = "Email alert sent successfully.")) ∧
  (∃ s',
     EmailAlerts.send_email_alert w recipient supplier count s = (Returns None, s') ∧
     tickets_file s' = tickets_file s).
Proof.
  split; [|split; [|split]].
  - rewrite V1_send_email_alert_run. unfold alert_answer.
    destruct (configured w); simpl;
      destruct (session_failure w _) eqn:E; eexists _, _, _;
      (split; [reflexivity|]); (split; [reflexivity|]);
      repeat split; intros; simplify_eq; done.
  - rewrite V3_send_email_alert_run. unfold alert_answer.
    destruct (configured w); simpl;
      destruct (session_failure w _) eqn:E; eexists _, _, _;
      (split; [reflexivity|]); (split; [reflexivity|]);
      repeat split; intros; simplify_eq; done.
  - rewrite V2_send_email_alert_run. unfold alert_answer.
    destruct (configured w); simpl;
      destruct (session_failure w _) eqn:E; eexists _, _;
      (split; [reflexivity|]);
      repeat split; intros; simplify_eq; done.
  - destruct (EmailAlerts_send_email_alert_run w recipient supplier count s)
      as (s' & H & _ & Hf). by exists s'.
Qed.

Lemma C6_notifier_never_raises_witness :
  ∃ s', V1.send_email_alert refusing_world acme_ticket "qa@example.com" fresh_state
        = (Returns (false, "(535, b'5.7.8 Username and Password not accepted')"), s').
Proof.
  destruct (C6_notifier_never_raises refusing_world acme_ticket "qa@example.com"
              "Acme" 4 fresh_state)
    as [(ok & detail & s' & Hrun & _ & _ & Hfail & _) _].
  destruct (Hfail eq_refl _ eq_refl) as [-> ->]. by exists s'.
Defined.

(** C6 (as stated, on [email_alerts.py]): when the login is refused the
    function shows the error and returns [None], not a pair. *)
Lemma C6_counterexample_no_pair_returned :
  ∃ s', EmailAlerts.send_email_alert refusing_world "qa@example.com" "Acme" 4 fresh_state
        = (Returns None, s') ∧
        ui s' = [st_error
                   "❌ Error sending email: (535, b'5.7.8 Username and Password not accepted')"].
Proof. eexists. split; reflexivity. Qed.

(** ** Frames *)

Lemma mapM_cons {A B} (f : A → M B) x l :
  mapM f (x :: l) = (y ← f x; k ← mapM f l; mret (y :: k)).
Proof. reflexivity. Qed.

Lemma mapM_getitem (rs : list (gmap string string)) key s :
  (∀ r, r ∈ rs → is_Some (r !! key)) →
  mapM (λ row, getitem row key) rs s = (Returns ((λ r, get r key) <$> rs), s).
Proof.
  induction rs as [|r rs IH]; intros H; [done|].
  rewrite mapM_cons, run_bind.
  destruct (H r) as [v Hv]; [left|].
  unfold getitem at 1. rewrite Hv, run_ret, run_bind.
  rewrite IH by (intros; apply H; by right).
  rewrite run_ret, fmap_cons. unfold get. by rewrite Hv.
Qed.

Lemma mapM_pure {A B} (f : A → B) (l : list A) s :
  mapM (λ x, mret (f x) : M B) l s = (Returns (f <$> l), s).
Proof.
  induction l as [|x l IH]; [done|].
  by rewrite mapM_cons, run_bind, run_ret, run_bind, IH.
Qed.

Lemma getcol_run df key s :
  key ∈ columns df →
  (∀ r, r ∈ rows df → is_Some (r !! key)) →
  getcol df key s = (Returns ((λ r, get r key) <$> rows df), s).
Proof.
  intros Hk Hr. unfold getcol. rewrite decide_True by done.
  by apply mapM_getitem.
Qed.

Lemma getcol_missing df key s :
  key ∉ columns df → getcol df key s = (Raises (KeyError key), s).
Proof. intros Hk. unfold getcol. by rewrite decide_False. Qed.

Lemma zip_with_insert (f : gmap string string → string) key (rs : list (gmap string string)) :
  zip_with (λ row cell, <[key := cell]> row) rs (f <$> rs)
  = (λ r, <[key := f r]> r) <$> rs.
Proof. induction rs as [|r rs IH]; [done|]. simpl. by f_equal. Qed.

Lemma rows_classified_frame classify df :
  rows (classified_frame classify df) = annotate classify <$> rows df.
Proof. unfold classified_frame, setcol. simpl. apply zip_with_insert. Qed.

Lemma columns_classified_frame classify df k :
  k ∈ columns df → k ∈ columns (classified_frame classify df).
Proof.
  unfold classified_frame, setcol. simpl. intros H.
  case_decide; [done|]. apply elem_of_app. by left.
Qed.

Lemma category_in_classified_frame classify df :
  "AI_Category" ∈ columns (classified_frame classify df).
Proof.
  unfold classified_frame, setcol. simpl.
  case_decide; [done|]. apply elem_of_app. right. by left.
Qed.



Lemma annotate_is_Some classify row key :
  is_Some (row !! key) ∨ key = "AI_Category" → is_Some (annotate classify row !! key).
Proof.
  unfold annotate. intros [H| ->].
  - destruct (decide (key = "AI_Category")) as [->|Hne].
    + rewrite lookup_insert_eq. by eexists.
    + by rewrite lookup_insert_ne.
  - rewrite lookup_insert_eq. by eexists.
Qed.

Lemma classify_messages_run classify df s :
  wf_frame df →
  "Message" ∈ columns df →
  classify_messages (λ text, mret (classify text)) df s
  = (Returns (classified_frame classify df), s).
Proof.
  intros Hwf Hm. unfold classify_messages.
  rewrite run_bind, getcol_run; [|done|by intros r Hr; apply Hwf].
  rewrite run_bind, mapM_pure, run_ret.
  unfold classified_frame. by rewrite <- list_fmap_compose.
Qed.

Lemma classify_messages_missing (classify : string → M string) df s :
  "Message" ∉ columns df →
  classify_messages classify df s = (Raises (KeyError "Message"), s).
Proof.
  intros Hm. unfold classify_messages. by rewrite run_bind, getcol_missing.
Qed.

Lemma select_run df keys s :
  (∀ k, k ∈ keys → k ∈ columns df) → select df keys s = (Returns tt, s).
Proof.
  induction keys as [|k keys IH]; intros H; [done|].
  simpl. rewrite decide_True by (apply H; left). apply IH.
  intros; apply H; by right.
Qed.

Lemma mask_filter key v (rs : list (gmap string string)) :
  (filter (λ rc : gmap string string * string, rc.2 = v)
     (zip rs ((λ r, get r key) <$> rs))).*1
  = filter (λ r, get r key = v) rs.
Proof.
  induction rs as [|r rs IH]; [done|].
  rewrite fmap_cons. cbn [zip_with]. rewrite !filter_cons. cbn [snd].
  destruct (decide (get r key = v)); rewrite ?fmap_cons, IH; done.
Qed.

Lemma where_eq_run df key v s :
  key ∈ columns df →
  (∀ r, r ∈ rows df → is_Some (r !! key)) →
  where_eq df key v s
  = (Returns {| columns := columns df;
                rows := filter (λ r, get r key = v) (rows df) |}, s).
Proof.
  intros Hk Hr. unfold where_eq. rewrite run_bind, getcol_run by done.
  by rewrite run_ret, mask_filter.
Qed.

(** ** Making tickets one after the other *)

Section AfterJobs.
Variable w : World.
Variable gate : bool.
Variable recipient : string.

Local Abbreviation after := (after_jobs w gate recipient).

Lemma after_jobs_cons row issue jobs s :
  after ((row, issue) :: jobs) s =
  let t := ticket_of (clock w (time_reads s)) row issue in
  (t :: (after jobs (ticketed gate recipient t s)).1,
   (after jobs (ticketed gate recipient t s)).2).
Proof. reflexivity. Qed.

Lemma after_jobs_app jobs1 jobs2 s :
  after (jobs1 ++ jobs2) s =
  ((after jobs1 s).1 ++ (after jobs2 (after jobs1 s).2).1,
   (after jobs2 (after jobs1 s).2).2).
Proof.
  revert s. induction jobs1 as [|[row issue] jobs1 IH]; intros s.
  - simpl. by destruct (after jobs2 s).
  - rewrite <- app_comm_cons, !after_jobs_cons. simpl. by rewrite IH.
Qed.


Lemma after_jobs_time jobs s :
  time_reads (after jobs s).2 = (time_reads s + length jobs)%nat.
Proof.
  revert s. induction jobs as [|[row issue] jobs IH]; intros s.
  - simpl. lia.
  - rewrite after_jobs_cons. simpl. rewrite IH. simpl. lia.
Qed.



Lemma after_jobs_alerts jobs s :
  alerts (after jobs s).2
  = alerts s ++ (if gate then (λ t, (t, recipient)) <$> (after jobs s).1 else []).
Proof.
  revert s. induction jobs as [|[row issue] jobs IH]; intros s.
  - simpl. destruct gate; by rewrite app_nil_r.
  - rewrite after_jobs_cons. simpl. rewrite IH. simpl.
    destruct gate; simpl; by rewrite <- ?app_assoc, ?app_nil_r.
Qed.

Lemma after_jobs_tickets jobs s :
  (after jobs s).1
  = imap (λ i job, ticket_of (clock w (time_reads s + i)) job.1 job.2) jobs.
Proof.
  revert s. induction jobs as [|[row issue] jobs IH]; intros s; [done|].
  rewrite after_jobs_cons. simpl. rewrite Nat.add_0_r. f_equal.
  rewrite IH. apply imap_ext. intros i [r iss] _. simpl.
  by rewrite Nat.add_succ_r.
Qed.



(** *** The loops make exactly these tickets *)

Variable notify : Ticket → M unit.
Variable aggregate_text : string → nat → string.

Hypothesis notify_run : ∀ t s,
  notify t s =
  (Returns tt,
   {| time_reads := time_reads s; tickets_file := tickets_file s;
      alerts := alerts s ++ (if gate then [(t, recipient)] else []);
      ui := ui s |}).

Lemma create_and_notify row issue s :
  (create_ticket_entry w row issue ≫= λ ticket, notify ticket ≫= λ _, mret ticket) s
  = (Returns (ticket_of (clock w (time_reads s)) row issue),
     ticketed gate recipient (ticket_of (clock w (time_reads s)) row issue) s).
Proof.
  rewrite run_bind, create_ticket_entry_run, run_bind, notify_run, run_ret.
  unfold ticketed. simpl. by rewrite app_nil_r.
Qed.

Lemma per_row_loop_run rs new_tickets s :
  (∀ r, r ∈ rs → is_Some (r !! "AI_Category")) →
  per_row_loop w notify rs new_tickets s
  = (Returns (new_tickets ++ (after (per_row_jobs rs) s).1),
     (after (per_row_jobs rs) s).2).
Proof.
  revert new_tickets s. induction rs as [|r rs IH]; intros acc s H.
  - simpl. by rewrite run_ret, app_nil_r.
  - cbn [per_row_loop]. rewrite run_bind.
    destruct (H r) as [c Hc]; [left|].
    unfold getitem. rewrite Hc, run_ret.
    assert (Hg : get r "AI_Category" = c) by (unfold get; by rewrite Hc).
    unfold per_row_jobs. rewrite filter_cons, Hg.
    destruct (decide (c = Supplier_Issue)) as [->|Hne].
    + rewrite run_bind, create_ticket_entry_run, run_bind, notify_run.
      rewrite fmap_cons, after_jobs_cons. cbn [fst snd].
      fold (per_row_jobs rs).
      rewrite IH by (intros; apply H; by right).
      unfold ticketed. simpl. rewrite app_nil_r, <- app_assoc. reflexivity.
    + fold (per_row_jobs rs). apply IH. intros; apply H; by right.
Qed.

Lemma aggregate_loop_run T df counts new_tickets s :
  "Supplier" ∈ columns df →
  (∀ r, r ∈ rows df → is_Some (r !! "Supplier")) →
  (∀ p, p ∈ counts → ∃ r, r ∈ rows df ∧ get r "Supplier" = p.1) →
  aggregate_loop w notify aggregate_text T df counts new_tickets s
  = (Returns (new_tickets ++ (after (aggregate_jobs aggregate_text T df counts) s).1),
     (after (aggregate_jobs aggregate_text T df counts) s).2).
Proof.
  intros Hcol Hrows. revert new_tickets s.
  induction counts as [|[supplier cnt] counts IH]; intros acc s H.
  - simpl. by rewrite run_ret, app_nil_r.
  - cbn [aggregate_loop]. unfold aggregate_jobs. rewrite filter_cons. cbn [snd].
    fold (aggregate_jobs aggregate_text T df counts).
    destruct (decide (T ≤ cnt)%nat) as [Hle|Hlt].
    + rewrite run_bind, where_eq_run by done. rewrite run_bind.
      destruct (H (supplier, cnt)) as (r & Hr & Hs); [left|]. simpl in Hs.
      unfold iloc0. cbn [rows].
      assert (Hin : r ∈ filter (λ r, get r "Supplier" = supplier) (rows df))
        by (by apply list_elem_of_filter).
      destruct (filter (λ r, get r "Supplier" = supplier) (rows df))
        as [|r0 rest] eqn:E; [by apply elem_of_nil in Hin|].
      assert (Hsr : sample_row df supplier = r0)
        by (unfold sample_row; by rewrite E).
      rewrite run_ret, run_bind, create_ticket_entry_run, run_bind, notify_run.
      rewrite fmap_cons, after_jobs_cons. cbn [fst snd]. rewrite Hsr.
      rewrite IH by (intros; apply H; by right).
      unfold ticketed. simpl. rewrite app_nil_r, <- app_assoc. reflexivity.
    + apply IH. intros; apply H; by right.
Qed.

End AfterJobs.

(** ** Counting suppliers *)

Lemma elem_of_first_seen (x : string) l : x ∈ first_seen l ↔ x ∈ l.
Proof.
  induction l as [|y l IH]; [done|].
  simpl. rewrite !elem_of_cons, list_elem_of_filter, IH.
  destruct (decide (x = y)); tauto.
Qed.






Lemma tally_key_in (p : string * nat) l : p ∈ tally l → p.1 ∈ l.
Proof.
  unfold tally. intros (x & -> & Hx)%list_elem_of_fmap.
  by apply elem_of_first_seen.
Qed.

Lemma value_counts_perm l : value_counts l ≡ₚ tally l.
Proof. apply merge_sort_Permutation. Qed.

(** ** The alerts after a ticket *)

Lemma V1_notify_run w email_alerts recipient t s :
  V1.notify w email_alerts recipient t s =
  (Returns tt,
   {| time_reads := time_reads s; tickets_file := tickets_file s;
      alerts := alerts s ++
                (if email_alerts && USE_EMAIL_ALERTS w then [(t, recipient)] else []);
      ui := ui s |}).
Proof.
  unfold V1.notify. destruct (email_alerts && USE_EMAIL_ALERTS w).
  - by rewrite run_bind, V1_send_email_alert_run, run_ret.
  - rewrite run_ret, app_nil_r. by destruct s.
Qed.

Lemma V3_notify_run w email_alerts recipient t s :
  V3.notify w email_alerts recipient t s =
  (Returns tt,
   {| time_reads := time_reads s; tickets_file := tickets_file s;
      alerts := alerts s ++ (if email_alerts then [(t, recipient)] else []);
      ui := ui s |}).
Proof.
  unfold V3.notify. destruct email_alerts.
  - by rewrite run_bind, V3_send_email_alert_run, run_ret.
  - rewrite run_ret, app_nil_r. by destruct s.
Qed.

(** ** The runs *)

Ltac in_list := rewrite ?elem_of_cons; tauto.

Section Runs.
Variable w : World.
Variable classify : string → string.
Variable df : DataFrame.
Hypothesis df_wf : wf_frame df.
Hypothesis df_columns : has_columns ["Complaint_ID"; "Message"; "Supplier"] df.

Local Abbreviation df' := (classified_frame classify df).

Lemma classified_rows_have key r :
  key ∈ columns df ∨ key = "AI_Category" → r ∈ rows df' → is_Some (r !! key).
Proof.
  intros Hk. rewrite rows_classified_frame.
  intros (r0 & -> & Hr0)%list_elem_of_fmap.
  apply annotate_is_Some. destruct Hk as [Hk|Hk]; [left|by right].
  by apply df_wf.
Qed.

Lemma classified_has key : key ∈ ["Complaint_ID"; "Message"; "Supplier"] →
  key ∈ columns df'.
Proof. intros H. by apply columns_classified_frame, df_columns. Qed.

Lemma classified_rows_have_given key r :
  key ∈ ["Complaint_ID"; "Message"; "Supplier"] → r ∈ rows df' → is_Some (r !! key).
Proof. intros H. apply classified_rows_have. left. by apply df_columns. Qed.

Lemma select_classified s :
  select df' ["Complaint_ID"; "Message"; "Supplier"; "AI_Category"] s = (Returns tt, s).
Proof.
  apply select_run. intros k Hk.
  destruct (decide (k = "AI_Category")) as [->|Hne].
  - apply category_in_classified_frame.
  - apply classified_has. revert Hk. in_list.
Qed.

Lemma strict_supplier_counts_run s :
  strict_supplier_counts df' s = (Returns (strict_counts df'), s).
Proof.
  unfold strict_supplier_counts.
  rewrite run_bind, (where_eq_run df' "AI_Category");
    [|apply category_in_classified_frame
     |intros r; apply classified_rows_have; by right].
  rewrite run_bind, getcol_run; [done| |].
  - simpl. apply classified_has. in_list.
  - simpl. intros r [_ Hr]%list_elem_of_filter. revert Hr.
    apply classified_rows_have_given. in_list.
Qed.

Lemma groupby_count_run s :
  groupby_count df' "Supplier" "Complaint_ID" s = (Returns (total_counts df'), s).
Proof.
  unfold groupby_count.
  rewrite run_bind, (getcol_run df' "Supplier");
    [|apply classified_has; in_list
     |intros r; apply classified_rows_have_given; in_list].
  rewrite run_bind, (getcol_run df' "Complaint_ID");
    [done
    |apply classified_has; in_list
    |intros r; apply classified_rows_have_given; in_list].
Qed.

Lemma strict_counts_in_frame p :
  p ∈ strict_counts df' → ∃ r, r ∈ rows df' ∧ get r "Supplier" = p.1.
Proof.
  unfold strict_counts. rewrite value_counts_perm.
  intros (r & Hr & [_ Hin]%list_elem_of_filter)%tally_key_in%list_elem_of_fmap.
  by exists r.
Qed.

Lemma total_counts_in_frame p :
  p ∈ total_counts df' → ∃ r, r ∈ rows df' ∧ get r "Supplier" = p.1.
Proof.
  unfold total_counts. rewrite merge_sort_Permutation.
  intros (r & Hr & Hin)%tally_key_in%list_elem_of_fmap.
  by exists r.
Qed.

Section Tickets.
Variable gate : bool.
Variable recipient : string.
Variable notify : Ticket → M unit.
Variable aggregate_text : string → nat → string.
Variable T : nat.
Hypothesis notify_run : ∀ t s,
  notify t s =
  (Returns tt,
   {| time_reads := time_reads s; tickets_file := tickets_file s;
      alerts := alerts s ++ (if gate then [(t, recipient)] else []);
      ui := ui s |}).

Lemma loops_run counts s :
  (∀ p, p ∈ counts → ∃ r, r ∈ rows df' ∧ get r "Supplier" = p.1) →
  (per_row_loop w notify (rows df') [] ≫=
   aggregate_loop w notify aggregate_text T df' counts) s
  = (Returns (after_jobs w gate recipient (run_jobs aggregate_text T df' counts) s).1,
     (after_jobs w gate recipient (run_jobs aggregate_text T df' counts) s).2).
Proof.
  intros Hc.
  rewrite run_bind, (per_row_loop_run w gate recipient notify notify_run);
    [|intros r; apply classified_rows_have; by right].
  rewrite (aggregate_loop_run w gate recipient notify aggregate_text notify_run);
    [|apply classified_has; in_list
     |intros r; apply classified_rows_have_given; in_list
     |done].
  unfold run_jobs. by rewrite after_jobs_app.
Qed.
End Tickets.
End Runs.

Lemma V1_run_spec w T email_alerts recipient df s :
  wf_frame df →
  has_columns ["Complaint_ID"; "Message"; "Supplier"] df →
  let df' := classified_frame V1.call_openai_classify df in
  let jobs := run_jobs V1.aggregate_text T df' (strict_counts df') in
  V1.run w T email_alerts recipient df s
  = (Returns (after_jobs w (email_alerts && USE_EMAIL_ALERTS w) recipient jobs s).1,
     (after_jobs w (email_alerts && USE_EMAIL_ALERTS w) recipient jobs s).2).
Proof.
  intros Hwf Hcols df' jobs. unfold V1.run.
  rewrite run_bind, classify_messages_run; [|done|apply Hcols; in_list].
  rewrite run_bind, select_classified by done.
  rewrite run_bind, strict_supplier_counts_run by done.
  apply (loops_run w V1.call_openai_classify df Hwf Hcols _ recipient).
  - apply V1_notify_run.
  - by apply strict_counts_in_frame.
Qed.

Lemma V3_run_spec w T email_alerts recipient df s :
  wf_frame df →
  has_columns ["Complaint_ID"; "Message"; "Supplier"] df →
  let df' := classified_frame V3.call_openai_classify df in
  let jobs := run_jobs V3.aggregate_text T df' (total_counts df') in
  V3.run w T email_alerts recipient df s
  = (Returns (after_jobs w email_alerts recipient jobs s).1,
     (after_jobs w email_alerts recipient jobs s).2).
Proof.
  intros Hwf Hcols df' jobs. unfold V3.run.
  rewrite run_bind, classify_messages_run; [|done|apply Hcols; in_list].
  rewrite run_bind, select_classified by done.
  rewrite run_bind, groupby_count_run by done.
  apply (loops_run w V3.call_openai_classify df Hwf Hcols _ recipient).
  - apply V3_notify_run.
  - by apply total_counts_in_frame.
Qed.

(** ** Frames given in full *)

Lemma wf_frame_by_dom df :
  Forall (λ r : gmap string string, dom r = list_to_set (columns df)) (rows df) →
  wf_frame df.
Proof.
  intros H r Hr k. rewrite Forall_forall in H.
  rewrite <- elem_of_dom, (H r Hr). apply elem_of_list_to_set.
Qed.

Lemma acme_frame_wf : wf_frame acme_frame.
Proof. apply wf_frame_by_dom. repeat constructor. Qed.

Lemma acme_frame_columns :
  has_columns ["Complaint_ID"; "Message"; "Supplier"] acme_frame.
Proof. intros k. unfold acme_frame. simpl. in_list. Qed.

(** ** What a run makes *)









Section Made.
Variable w : World.
Variable gate : bool.
Variable recipient : string.
Variable aggregate_text : string → nat → string.
Hypothesis aggregate_text_prefix :
  ∀ supplier cnt, starts_with "Aggregate alert: " (aggregate_text supplier cnt) = true.

Local Abbreviation after := (after_jobs w gate recipient).






End Made.



(** ** The per-row tickets *)

Section PerRow.
Variable w : World.
Variable gate : bool.
Variable recipient : string.
Variable aggregate_text : string → nat → string.
Hypothesis aggregate_text_prefix :
  ∀ supplier cnt, starts_with "Aggregate alert: " (aggregate_text supplier cnt) = true.
Variable classify : string → string.
Variable T : nat.
Variable df : DataFrame.
Variable counts : list (string * nat).
Variable s : State.

Local Abbreviation made :=
  (after_jobs w gate recipient
     (run_jobs aggregate_text T (classified_frame classify df) counts) s).





End PerRow.



(** ** The aggregate tickets *)






(** ** Ticket identifiers *)

Lemma after_jobs_ids w gate recipient jobs s :
  Ticket_ID <$> (after_jobs w gate recipient jobs s).1
  = (λ n, ticket_id_of (epoch_ms (clock w n))) <$> seq (time_reads s) (length jobs).
Proof.
  revert s. induction jobs as [|[row issue] jobs IH]; intros s; [done|].
  rewrite after_jobs_cons. simpl. by rewrite IH.
Qed.

Lemma ticket_id_of_inj : Inj (=) (=) ticket_id_of.
Proof.
  intros x y H. unfold ticket_id_of in H. rewrite !str_app_cons in H.
  injection H as H. by apply (inj pretty).
Qed.

Lemma readings_sorted w a n :
  clock_increasing w →
  StronglySorted Z.lt ((λ n, epoch_ms (clock w n)) <$> seq a n).
Proof.
  intros Hinc. revert a. induction n as [|n IH]; intros a; [constructor|].
  simpl. constructor; [apply IH|].
  apply Forall_forall. intros z (i & -> & Hi)%list_elem_of_fmap.
  apply elem_of_seq in Hi. apply Hinc. lia.
Qed.

Lemma made_ids_increasing w gate recipient jobs s :
  clock_increasing w →
  NoDup (Ticket_ID <$> (after_jobs w gate recipient jobs s).1) ∧
  ∃ ms, Ticket_ID <$> (after_jobs w gate recipient jobs s).1 = ticket_id_of <$> ms ∧
        StronglySorted Z.lt ms.
Proof.
  intros Hinc. rewrite after_jobs_ids.
  assert (Hs := readings_sorted w (time_reads s) (length jobs) Hinc).
  rewrite (list_fmap_compose (λ n, epoch_ms (clock w n)) ticket_id_of).
  split; [|by eexists].
  apply (NoDup_fmap_2 ticket_id_of (Inj0:=ticket_id_of_inj)).
  induction Hs as [|z ms Hs IH Hlt]; constructor; [|done].
  intros Hin. rewrite Forall_forall in Hlt. specialize (Hlt z Hin). lia.
Qed.

(** C3 (as stated): two tickets made within the same clock millisecond
    have the same identifier. *)
Lemma C3_counterexample_same_millisecond :
  ∃ tickets s',
    V1.run frozen_world 1 true "qa@example.com" acme_frame fresh_state
    = (Returns tickets, s') ∧
    length tickets = 2%nat ∧
    ¬ NoDup (Ticket_ID <$> tickets).
Proof.
  eexists _, _. split; [reflexivity|]. split; [reflexivity|].
  intros H. apply NoDup_cons in H as [H _]. apply H. left.
Qed.

(** C3 (amended): A ticket identifier is the letter T followed by the
    millisecond reading of the clock when the ticket is made.  When
    successive readings of the clock are strictly increasing, the
    identifiers of the tickets of a run are pairwise distinct and their
    readings strictly increase in the order the tickets are made. *)
Theorem C3_ticket_ids_follow_clock w T email_alerts recipient df s :
  wf_frame df →
  has_columns ["Complaint_ID"; "Message"; "Supplier"] df →
  clock_increasing w →
  (∃ tickets s',
     V1.run w T email_alerts recipient df s = (Returns tickets, s') ∧
     NoDup (Ticket_ID <$> tickets) ∧
     ∃ ms, Ticket_ID <$> tickets = ticket_id_of <$> ms ∧ StronglySorted Z.lt ms) ∧
  (∃ tickets s',
     V3.run w T email_alerts recipient df s = (Returns tickets, s') ∧
     NoDup (Ticket_ID <$> tickets) ∧
     ∃ ms, Ticket_ID <$> tickets = ticket_id_of <$> ms ∧ StronglySorted Z.lt ms).
Proof.
  intros Hwf Hcols Hinc. split.
  - eexists _, _. split; [by apply V1_run_spec|]. by apply made_ids_increasing.
  - eexists _, _. split; [by apply V3_run_spec|]. by apply made_ids_increasing.
Qed.

Lemma quiet_world_clock_increasing : clock_increasing quiet_world.
Proof. intros i j Hij. simpl. lia. Qed.

Lemma C3_ticket_ids_follow_clock_witness :
  ∃ tickets s',
    V1.run quiet_world 1 true "qa@example.com" acme_frame fresh_state
    = (Returns tickets, s') ∧
    NoDup (Ticket_ID <$> tickets).
Proof.
  destruct (C3_ticket_ids_follow_clock quiet_world 1 true "qa@example.com" acme_frame
              fresh_state acme_frame_wf acme_frame_columns quiet_world_clock_increasing)
    as [(tickets & s' & Hrun & Hnd & _) _].
  by exists tickets, s'.
Defined.

(** ** Alerts for the tickets of a run *)

(** C5 (as stated, on the first revision): with the checkbox set and
    [USE_EMAIL_ALERTS] off, tickets are made and no alert is sent. *)
Lemma C5_counterexample_alerts_gated :
  ∃ tickets s',
    V1.run quiet_world 1 true "qa@example.com" acme_frame fresh_state
    = (Returns tickets, s') ∧
    length tickets = 2%nat ∧
    alerts s' = [].
Proof. eexists _, _. split; [reflexivity|]. split; reflexivity. Qed.

(** C5 (amended): With the checkbox set, [send_email_alert] is called
    exactly once for each ticket made in the run, in the order the tickets
    are made, in the third revision always and in the first revision when
    [USE_EMAIL_ALERTS] is on; in the first revision with
    [USE_EMAIL_ALERTS] off it is not called.  The run returns the tickets
    only: what the calls answer is dropped. *)
Theorem C5_alert_per_ticket w T recipient df s :
  wf_frame df →
  has_columns ["Complaint_ID"; "Message"; "Supplier"] df →
  (∃ tickets s',
     V1.run w T true recipient df s = (Returns tickets, s') ∧
     alerts s' = alerts s ++
                 (if USE_EMAIL_ALERTS w then (λ t, (t, recipient)) <$> tickets else [])) ∧
  (∃ tickets s',
     V3.run w T true recipient df s = (Returns tickets, s') ∧
     alerts s' = alerts s ++ ((λ t, (t, recipient)) <$> tickets)).
Proof.
  intros Hwf Hcols. split.
  - eexists _, _. split; [by apply V1_run_spec|]. by rewrite after_jobs_alerts.
  - eexists _, _. split; [by apply V3_run_spec|]. by rewrite after_jobs_alerts.
Qed.

Lemma C5_alert_per_ticket_witness :
  ∃ tickets s',
    V3.run quiet_world 1 true "qa@example.com" acme_frame fresh_state
    = (Returns tickets, s') ∧
    alerts s' = (λ t, (t, "qa@example.com")) <$> tickets.
Proof.
  destruct (C5_alert_per_ticket quiet_world 1 "qa@example.com" acme_frame fresh_state
              acme_frame_wf acme_frame_columns)
    as [_ (tickets & s' & Hrun & Hal)].
  by exists tickets, s'.
Defined.

(** ** Required columns *)

(** The second revision refuses a frame that lacks a required column
    before anything is classified or written. *)
Lemma V2_missing_column_refused w T df s :
  ¬ V2.required_cols ⊆ columns df →
  ∃ s', V2.run w T df s = (Returns None, s') ∧
        tickets_file s' = tickets_file s ∧
        time_reads s' = time_reads s ∧
        alerts s' = alerts s.
Proof.
  intros H. unfold V2.run. rewrite bool_decide_false by done. simpl.
  rewrite run_bind. unfold show. by eexists.
Qed.

(** The first and the third revision stop on a frame without the Message
    column, when they start to classify. *)
Lemma V1_missing_message w T email_alerts recipient df s :
  "Message" ∉ columns df →
  V1.run w T email_alerts recipient df s = (Raises (KeyError "Message"), s).
Proof.
  intros H. unfold V1.run. by rewrite run_bind, classify_messages_missing.
Qed.

(** C4: On an upload without the Product column the first revision runs
    to the end: the row is classified, a ticket with an empty Product is
    made and the tickets file grows, where the second revision refuses the
    same upload and leaves the file as it is. *)
Theorem C4_missing_product_not_refused :
  ¬ V2.required_cols ⊆ columns no_product_frame ∧
  (∃ tickets s',
     V1.run quiet_world 3 true "qa@example.com" no_product_frame fresh_state
     = (Returns tickets, s') ∧
     (length tickets = 1)%nat ∧
     Product <$> tickets = [""] ∧
     tickets_file s' ≠ tickets_file fresh_state) ∧
  (∃ s',
     V2.run quiet_world 3 no_product_frame fresh_state = (Returns None, s') ∧
     tickets_file s' = tickets_file fresh_state).
Proof.
  split; [|split].
  - intros H. specialize (H "Product"). unfold V2.required_cols in H.
    assert (Hin : "Product" ∈ columns no_product_frame) by (apply H; in_list).
    simpl in Hin. revert Hin. rewrite !elem_of_cons, elem_of_nil.
    intros [?|[?|[?|[]]]]; discriminate.
  - eexists _, _. split; [reflexivity|]. split; [reflexivity|].
    split; [reflexivity|]. by vm_compute.
  - eexists. split; reflexivity.
Qed.

(** ** Reading the tickets file back *)

















(** * Further properties *)

Ltac pick := repeat first [apply list_elem_of_here | apply list_elem_of_further].

(** ** Keywords in any case *)

Lemma lower_app a b : lower (a +:+ b) = lower a +:+ lower b.
Proof. induction a as [|c a IH]; [done|]. rewrite str_app_cons. simpl. by rewrite IH. Qed.

Lemma Substring_lower word msg :
  Substring word msg → Substring (lower word) (lower msg).
Proof.
  intros (pre & post & ->). exists (lower pre), (lower post).
  by rewrite !lower_app.
Qed.

(** X1: In the third revision a message that holds one of the five
    supplier keywords, written in any mix of upper and lower case, is a
    supplier issue, whatever else it holds. *)
Theorem X1_supplier_keyword_any_case (msg word : string) :
  lower word ∈ SUPPLIER_KEYWORDS →
  Substring word msg →
  V3.call_openai_classify msg = Supplier_Issue.
Proof.
  intros Hin Hsub. apply (V3_supplier_keyword_wins msg (lower word)); [done|].
  by apply Substring_lower.
Qed.

Lemma X1_supplier_keyword_any_case_witness :
  V3.call_openai_classify "Item DEFECTIVE, courier was late" = Supplier_Issue.
Proof.
  apply (X1_supplier_keyword_any_case _ "DEFECT").
  - unfold SUPPLIER_KEYWORDS. simpl. pick.
  - by exists "Item ", "IVE, courier was late".
Defined.

(** X2: In the first revision a message that holds one of damage, wrong,
    missing and color, in any case, is a supplier issue, whatever else it
    holds. *)
Theorem X2_first_revision_supplier_keywords (msg word : string) :
  lower word ∈ V1_SUPPLIER_KEYWORDS →
  Substring word msg →
  V1.call_openai_classify msg = Supplier_Issue.
Proof.
  intros Hin Hsub%Substring_lower%contains_spec.
  unfold V1.call_openai_classify, V1_SUPPLIER_KEYWORDS in *. simpl.
  repeat (apply elem_of_cons in Hin as [Hw|Hin];
          [rewrite Hw in Hsub; rewrite Hsub, ?orb_true_r; reflexivity|]).
  by apply elem_of_nil in Hin.
Qed.

Lemma X2_first_revision_supplier_keywords_witness :
  V1.call_openai_classify "Box arrived late and the COLOR is off" = Supplier_Issue.
Proof.
  apply (X2_first_revision_supplier_keywords _ "COLOR").
  - unfold V1_SUPPLIER_KEYWORDS. simpl. pick.
  - by exists "Box arrived late and the ", " is off".
Defined.

(** X3: A message that holds a logistics keyword, in any case, and none of
    the supplier keywords of the revision is a logistics issue, in the
    first and in the third revision. *)
Theorem X3_logistics_rule (msg word : string) :
  lower word ∈ LOGISTICS_KEYWORDS →
  Substring word msg →
  ((∀ k : string, k ∈ V1_SUPPLIER_KEYWORDS → ¬ Substring k (lower msg)) →
   V1.call_openai_classify msg = Logistics_Issue) ∧
  ((∀ k : string, k ∈ SUPPLIER_KEYWORDS → ¬ Substring k (lower msg)) →
   V3.call_openai_classify msg = Logistics_Issue).
Proof.
  intros Hin Hsub%Substring_lower%contains_spec.
  split; intros Hno.
  - unfold V1.call_openai_classify. cbv zeta.
    rewrite (contains_false "damage"), (contains_false "wrong"),
      (contains_false "missing"), (contains_false "color")
      by (apply Hno; unfold V1_SUPPLIER_KEYWORDS; pick).
    cbn [orb]. unfold LOGISTICS_KEYWORDS in Hin.
    repeat (apply elem_of_cons in Hin as [Hw|Hin];
            [rewrite Hw in Hsub; rewrite Hsub, ?orb_true_r; reflexivity|]).
    by apply elem_of_nil in Hin.
  - unfold V3.call_openai_classify. cbv zeta. cbn [existsb].
    rewrite (contains_false "damage"), (contains_false "wrong"),
      (contains_false "missing"), (contains_false "color"), (contains_false "defect")
      by (apply Hno; unfold SUPPLIER_KEYWORDS; pick).
    cbn [orb]. unfold LOGISTICS_KEYWORDS in Hin.
    repeat (apply elem_of_cons in Hin as [Hw|Hin];
            [rewrite Hw in Hsub; rewrite Hsub, ?orb_true_r; reflexivity|]).
    by apply elem_of_nil in Hin.
Qed.

Lemma X3_logistics_rule_witness :
  V1.call_openai_classify "Courier never came" = Logistics_Issue ∧
  V3.call_openai_classify "Courier never came" = Logistics_Issue.
Proof.
  assert (Hin : lower "Courier" ∈ LOGISTICS_KEYWORDS)
    by (unfold LOGISTICS_KEYWORDS; simpl; pick).
  assert (Hsub : Substring "Courier" "Courier never came")
    by (by exists "", " never came").
  destruct (X3_logistics_rule "Courier never came" "Courier" Hin Hsub) as [H1 H3].
  split.
  - apply H1. intros k Hk Hs%contains_spec. unfold V1_SUPPLIER_KEYWORDS in Hk.
    repeat (apply elem_of_cons in Hk as [->|Hk]; [vm_compute in Hs; discriminate|]).
    by apply elem_of_nil in Hk.
  - apply H3. intros k Hk Hs%contains_spec. unfold SUPPLIER_KEYWORDS in Hk.
    repeat (apply elem_of_cons in Hk as [->|Hk]; [vm_compute in Hs; discriminate|]).
    by apply elem_of_nil in Hk.
Defined.

(** ** The remote classifier *)

Lemma V2_call_openai_classify_run w text s :
  V2.call_openai_classify w text s =
  (Returns (remote_category w text),
   match openai_chat w (V2.prompt text) with
   | Returns _ => s
   | Raises e => shown [st_warning ("OpenAI error: " +:+ str_exn e)] s
   end).
Proof.
  unfold V2.call_openai_classify, remote_category, try_except, call.
  rewrite run_bind.
  destruct (openai_chat w (V2.prompt text)) as [answer|e].
  - by repeat case_match.
  - reflexivity.
Qed.

(** X4: The remote classifier of the second revision never raises.  It
    answers Unknown exactly when the remote call raised, and then shows one
    warning; an answer that mentions supplier is a supplier issue even if
    it also mentions logistic, and an answer that mentions neither is a
    customer issue; the tickets file is never touched. *)
Theorem X4_remote_classifier w text s :
  ∃ category s',
    V2.call_openai_classify w text s = (Returns category, s') ∧
    tickets_file s' = tickets_file s ∧
    (category = Unknown ↔ ∃ e, openai_chat w (V2.prompt text) = Raises e) ∧
    (∀ e, openai_chat w (V2.prompt text) = Raises e →
          ui s' = ui s ++ [st_warning ("OpenAI error: " +:+ str_exn e)]) ∧
    (∀ answer, openai_chat w (V2.prompt text) = Returns answer →
       s' = s ∧
       (Substring "supplier" (lower answer) → category = Supplier_Issue) ∧
       (¬ Substring "supplier" (lower answer) → Substring "logistic" (lower answer) →
        category = Logistics_Issue) ∧
       (¬ Substring "supplier" (lower answer) → ¬ Substring "logistic" (lower answer) →
        category = Customer_Issue)).
Proof.
  eexists _, _. split; [apply V2_call_openai_classify_run|].
  unfold remote_category.
  destruct (openai_chat w (V2.prompt text)) as [answer|e].
  - split; [done|]. split.
    + split; [|intros [e He]; discriminate].
      repeat case_match; discriminate.
    + split; [intros e He; discriminate|].
      intros a [= <-]. split; [done|].
      split; [intros H%contains_spec; by rewrite H|].
      split.
      * intros H1%contains_false H2%contains_spec. by rewrite H1, H2.
      * intros H1%contains_false H2%contains_false. by rewrite H1, H2.
  - split; [done|]. split; [split; [by eexists|done]|].
    split; [by intros e' [= <-]|]. intros a Ha. discriminate.
Qed.

Lemma X4_remote_classifier_witness :
  ∃ s', V2.call_openai_classify quiet_world "Wrong color received" fresh_state
        = (Returns Supplier_Issue, s') ∧ s' = fresh_state.
Proof.
  destruct (X4_remote_classifier quiet_world "Wrong color received" fresh_state)
    as (category & s' & Hrun & _ & _ & _ & Hans).
  destruct (Hans "Supplier Issue" eq_refl) as (-> & Hsup & _).
  exists fresh_state. split; [|done]. rewrite Hrun. f_equal. f_equal.
  apply Hsup. by exists "", " issue".
Defined.

(** ** Uploads that lack a column *)

(** X5: The second revision refuses every upload that lacks one of
    Complaint_ID, Message, Supplier and Product: it shows one error, makes
    no ticket, takes no clock reading, sends no alert and leaves the
    tickets file as it is. *)
Theorem X5_second_revision_refuses w T df s :
  ¬ V2.required_cols ⊆ columns df →
  ∃ s', V2.run w T df s = (Returns None, s') ∧
        tickets_file s' = tickets_file s ∧
        time_reads s' = time_reads s ∧
        alerts s' = alerts s ∧
        ∃ text, ui s' = ui s ++ [st_error text].
Proof.
  intros H. unfold V2.run. rewrite bool_decide_false by done. simpl.
  rewrite run_bind. unfold show. eexists. repeat split. by eexists.
Qed.

Lemma no_supplier_frame_refused : ¬ V2.required_cols ⊆ columns no_supplier_frame.
Proof.
  intros H. assert (Hin : "Supplier" ∈ columns no_supplier_frame)
    by (apply H; unfold V2.required_cols; pick).
  simpl in Hin. revert Hin. rewrite !elem_of_cons, elem_of_nil.
  intros [?|[?|[?|[]]]]; discriminate.
Qed.

Lemma X5_second_revision_refuses_witness :
  ∃ s', V2.run quiet_world 1 no_supplier_frame fresh_state = (Returns None, s') ∧
        tickets_file s' = tickets_file fresh_state.
Proof.
  destruct (X5_second_revision_refuses quiet_world 1 no_supplier_frame fresh_state
              no_supplier_frame_refused) as (s' & Hrun & Hfile & _).
  by exists s'.
Defined.



Section MissingColumn.
Variable classify : string → string.
Variable run : DataFrame → M (list Ticket).
Variable rest : DataFrame → M (list Ticket).
Hypothesis run_unfold : ∀ df,
  run df =
  classify_messages (λ text, mret (classify text)) df ≫= λ df,
  select df ["Complaint_ID"; "Message"; "Supplier"; "AI_Category"] ≫= λ _,
  rest df.

End MissingColumn.





(** ** Batches without tickets *)



Lemma value_counts_nil : value_counts [] = [].
Proof. reflexivity. Qed.




(** ** Running the same upload again *)


Section Again.
Variable w : World.
Variable gate : bool.
Variable recipient : string.
Variable jobs : list (gmap string string * string).
Variable run : M (list Ticket).
Hypothesis run_spec : ∀ s,
  run s = (Returns (after_jobs w gate recipient jobs s).1,
           (after_jobs w gate recipient jobs s).2).

End Again.






(** ** What an aggregate ticket holds *)




Section AggregateContent.
Variable w : World.
Variable gate : bool.
Variable recipient : string.
Variable aggregate_text : string → nat → string.
Variable classify : string → string.
Variable T : nat.
Variable df : DataFrame.
Variable counts : list (string * nat).
Variable count_of : string → nat.
Hypothesis counts_in_frame : ∀ p, p ∈ counts →
  ∃ r, r ∈ rows (classified_frame classify df) ∧ get r "Supplier" = p.1.
Hypothesis counts_count : ∀ p, p ∈ counts → p.2 = count_of p.1.

End AggregateContent.





(** ** The tickets file is only appended to *)

Lemma file_grows_refl s : file_grows s s.
Proof. exists EmptyString. by rewrite str_app_nil_r. Qed.

Lemma file_grows_same s s' : tickets_file s' = tickets_file s → file_grows s s'.
Proof. intros H. exists EmptyString. by rewrite H, str_app_nil_r. Qed.

Lemma file_grows_trans s1 s2 s3 :
  file_grows s1 s2 → file_grows s2 s3 → file_grows s1 s3.
Proof.
  intros [a Ha] [b Hb]. exists (a +:+ b). by rewrite Hb, Ha, str_app_assoc.
Qed.

Lemma appends_only_ret {A} (a : A) : appends_only (mret a : M A).
Proof. intros s. apply file_grows_refl. Qed.

Lemma appends_only_raise {A} e : appends_only (raise e : M A).
Proof. intros s. apply file_grows_refl. Qed.

Lemma appends_only_bind {A B} (m : M A) (k : A → M B) :
  appends_only m → (∀ a, appends_only (k a)) → appends_only (m ≫= k).
Proof.
  intros Hm Hk s. rewrite run_bind. specialize (Hm s).
  destruct (m s) as [[a|e] s1]; [|done].
  eapply file_grows_trans; [exact Hm|apply Hk].
Qed.

Lemma appends_only_try_except {A} (m : M A) (h : exn → M A) :
  appends_only m → (∀ e, appends_only (h e)) → appends_only (try_except m h).
Proof.
  intros Hm Hh s. unfold try_except. specialize (Hm s).
  destruct (m s) as [[a|e] s1]; [done|].
  eapply file_grows_trans; [exact Hm|apply Hh].
Qed.

Lemma appends_only_attempt r : appends_only (attempt r).
Proof. intros s. destruct r; apply file_grows_refl. Qed.

Lemma appends_only_call {A} (o : outcome A) : appends_only (call o).
Proof. intros s. apply file_grows_refl. Qed.

Lemma appends_only_show e : appends_only (show e).
Proof. intros s. by apply file_grows_same. Qed.

Lemma appends_only_log_alert t r : appends_only (log_alert t r).
Proof. intros s. by apply file_grows_same. Qed.

Lemma appends_only_getitem row key : appends_only (getitem row key).
Proof. intros s. unfold getitem. destruct (row !! key); apply file_grows_refl. Qed.

Lemma appends_only_create_ticket_entry w row issue :
  appends_only (create_ticket_entry w row issue).
Proof. intros s. by eexists. Qed.

Lemma appends_only_mapM {A B} (f : A → M B) l :
  (∀ x, appends_only (f x)) → appends_only (mapM f l).
Proof.
  intros Hf. induction l as [|x l IH].
  - apply appends_only_ret.
  - rewrite mapM_cons. apply appends_only_bind; [apply Hf|]. intros y.
    apply appends_only_bind; [apply IH|]. intros k. apply appends_only_ret.
Qed.

Lemma appends_only_getcol df key : appends_only (getcol df key).
Proof.
  unfold getcol. case_decide; [|apply appends_only_raise].
  apply appends_only_mapM. intros row. apply appends_only_getitem.
Qed.

Lemma appends_only_select df keys : appends_only (select df keys).
Proof.
  induction keys as [|k keys IH]; simpl; [apply appends_only_ret|].
  case_decide; [done|apply appends_only_raise].
Qed.

Lemma appends_only_where_eq df key v : appends_only (where_eq df key v).
Proof.
  apply appends_only_bind; [apply appends_only_getcol|].
  intros cells. apply appends_only_ret.
Qed.

Lemma appends_only_iloc0 df : appends_only (iloc0 df).
Proof.
  unfold iloc0. destruct (rows df); [apply appends_only_raise|apply appends_only_ret].
Qed.

Lemma appends_only_classify_messages classify df :
  (∀ text, appends_only (classify text)) →
  appends_only (classify_messages classify df).
Proof.
  intros Hc. apply appends_only_bind; [apply appends_only_getcol|]. intros msgs.
  apply appends_only_bind; [by apply appends_only_mapM|]. intros cats.
  apply appends_only_ret.
Qed.

Lemma appends_only_strict_supplier_counts df :
  appends_only (strict_supplier_counts df).
Proof.
  apply appends_only_bind; [apply appends_only_where_eq|]. intros issues.
  apply appends_only_bind; [apply appends_only_getcol|]. intros suppliers.
  apply appends_only_ret.
Qed.

Lemma appends_only_groupby_count df by_ value :
  appends_only (groupby_count df by_ value).
Proof.
  apply appends_only_bind; [apply appends_only_getcol|]. intros keys.
  apply appends_only_bind; [apply appends_only_getcol|]. intros cells.
  apply appends_only_ret.
Qed.

Lemma appends_only_smtp_session w msg : appends_only (smtp_session w msg).
Proof.
  unfold smtp_session.
  repeat (apply appends_only_bind; [apply appends_only_attempt|]; intros _).
  apply appends_only_attempt.
Qed.

Lemma appends_only_V1_send_email_alert w ticket recipient :
  appends_only (V1.send_email_alert w ticket recipient).
Proof. intros s. rewrite V1_send_email_alert_run. by apply file_grows_same. Qed.

Lemma appends_only_V3_send_email_alert w ticket recipient :
  appends_only (V3.send_email_alert w ticket recipient).
Proof. intros s. rewrite V3_send_email_alert_run. by apply file_grows_same. Qed.

Lemma appends_only_V2_send_email_alert w recipient supplier count :
  appends_only (V2.send_email_alert w recipient supplier count).
Proof. intros s. rewrite V2_send_email_alert_run. apply file_grows_refl. Qed.

Lemma appends_only_per_row_loop w notify rs new_tickets :
  (∀ t, appends_only (notify t)) →
  appends_only (per_row_loop w notify rs new_tickets).
Proof.
  intros Hn. revert new_tickets. induction rs as [|row rs IH]; intros acc.
  - apply appends_only_ret.
  - cbn [per_row_loop]. apply appends_only_bind; [apply appends_only_getitem|].
    intros category. case_decide; [|apply IH].
    apply appends_only_bind; [apply appends_only_create_ticket_entry|]. intros t.
    apply appends_only_bind; [apply Hn|]. intros _. apply IH.
Qed.

Lemma appends_only_aggregate_loop w notify text T df counts new_tickets :
  (∀ t, appends_only (notify t)) →
  appends_only (aggregate_loop w notify text T df counts new_tickets).
Proof.
  intros Hn. revert new_tickets.
  induction counts as [|[supplier cnt] counts IH]; intros acc.
  - apply appends_only_ret.
  - cbn [aggregate_loop]. case_decide; [|apply IH].
    apply appends_only_bind; [apply appends_only_where_eq|]. intros matching.
    apply appends_only_bind; [apply appends_only_iloc0|]. intros sample.
    apply appends_only_bind; [apply appends_only_create_ticket_entry|]. intros t.
    apply appends_only_bind; [apply Hn|]. intros _. apply IH.
Qed.

Lemma appends_only_V1_notify w email_alerts recipient t :
  appends_only (V1.notify w email_alerts recipient t).
Proof. intros s. rewrite V1_notify_run. by apply file_grows_same. Qed.

Lemma appends_only_V3_notify w email_alerts recipient t :
  appends_only (V3.notify w email_alerts recipient t).
Proof. intros s. rewrite V3_notify_run. by apply file_grows_same. Qed.

Lemma appends_only_V2_classify w text : appends_only (V2.call_openai_classify w text).
Proof.
  intros s. rewrite V2_call_openai_classify_run. simpl.
  destruct (openai_chat w _); by apply file_grows_same.
Qed.

Lemma appends_only_threshold_emails w counts :
  appends_only (V2.threshold_emails w counts).
Proof.
  induction counts as [|[supplier count] counts IH]; [apply appends_only_ret|].
  cbn [V2.threshold_emails]. apply appends_only_bind; [|by intros _].
  case_decide; [|apply appends_only_ret].
  apply appends_only_bind; [apply appends_only_V2_send_email_alert|].
  intros r. apply appends_only_show.
Qed.

(** X11: A run never rewrites or shortens the tickets file: for every
    upload, well formed or not, and whether the run returns, refuses the
    upload or stops on an exception, the file after the run is the file
    before it followed by what the run appended. *)
Theorem X11_tickets_file_append_only w T email_alerts recipient df s :
  file_grows s (V1.run w T email_alerts recipient df s).2 ∧
  file_grows s (V2.run w T df s).2 ∧
  file_grows s (V3.run w T email_alerts recipient df s).2.
Proof.
  split; [|split].
  - apply (appends_only_bind _ _
             (appends_only_classify_messages _ df (λ text, appends_only_ret _))).
    intros df1. apply appends_only_bind; [apply appends_only_select|]. intros _.
    apply appends_only_bind; [apply appends_only_strict_supplier_counts|]. intros counts.
    apply appends_only_bind.
    + apply appends_only_per_row_loop. intros t. apply appends_only_V1_notify.
    + intros tickets. apply appends_only_aggregate_loop. intros t.
      apply appends_only_V1_notify.
  - unfold V2.run. destruct (negb _).
    + apply appends_only_bind; [apply appends_only_show|]. intros _.
      apply appends_only_ret.
    + apply (appends_only_bind _ _
               (appends_only_classify_messages _ df (appends_only_V2_classify w))).
      intros df1. apply appends_only_bind; [apply appends_only_select|]. intros _.
      apply appends_only_bind; [apply appends_only_strict_supplier_counts|]. intros counts.
      apply appends_only_bind; [apply appends_only_threshold_emails|]. intros _.
      apply appends_only_bind.
      * apply appends_only_per_row_loop. intros t. apply appends_only_ret.
      * intros tickets. apply appends_only_bind.
        -- apply appends_only_aggregate_loop. intros t. apply appends_only_ret.
        -- intros tickets'. apply appends_only_ret.
  - apply (appends_only_bind _ _
             (appends_only_classify_messages _ df (λ text, appends_only_ret _))).
    intros df1. apply appends_only_bind; [apply appends_only_select|]. intros _.
    apply appends_only_bind; [apply appends_only_groupby_count|]. intros counts.
    apply appends_only_bind.
    + apply appends_only_per_row_loop. intros t. apply appends_only_V3_notify.
    + intros tickets. apply appends_only_aggregate_loop. intros t.
      apply appends_only_V3_notify.
Qed.

(** ** The alert of [email_alerts.py] *)

(** X12: The alert function of [email_alerts.py] returns [None] on every
    call and shows exactly one message: the success message when the
    connection, the login, the sending and the closing all succeed, an
    error message otherwise.  Nothing else of the state changes. *)
Theorem X12_email_alert_one_message w to_email supplier_name issue_count s :
  ∃ event,
    EmailAlerts.send_email_alert w to_email supplier_name issue_count s
    = (Returns None, shown [event] s) ∧
    ((∃ text, event = st_success text) ↔
     smtp_ssl_connect w "smtp.gmail.com" 465 = None ∧
     smtp_login w (EMAIL_USER w) (EMAIL_PASS w) = None ∧
     smtp_sendmail w (EmailAlerts.alert_mail w to_email supplier_name issue_count) = None ∧
     smtp_quit w = None).
Proof.
  unfold EmailAlerts.send_email_alert, EmailAlerts.with_smtp_ssl, EmailAlerts.closing.
  run_monad.
  destruct (smtp_ssl_connect w _ _) eqn:Hc; simpl.
  { eexists. split; [reflexivity|]. split; [intros [? ?]; discriminate|].
    intros (? & _); discriminate. }
  run_monad.
  destruct (smtp_login w _ _) eqn:Hl; simpl.
  { destruct (smtp_quit w) eqn:Hq; simpl;
      (eexists; split; [reflexivity|]; split; [intros [? ?]; discriminate|];
       intros (_ & ? & _); discriminate). }
  destruct (smtp_sendmail w _) eqn:Hs; simpl.
  { destruct (smtp_quit w) eqn:Hq; simpl;
      (eexists; split; [reflexivity|]; split; [intros [? ?]; discriminate|];
       intros (_ & _ & ? & _); discriminate). }
  destruct (smtp_quit w) eqn:Hq; simpl.
  - eexists. split; [reflexivity|]. split; [intros [? ?]; discriminate|].
    intros (_ & _ & _ & ?); discriminate.
  - eexists. split; [reflexivity|]. split; [done|]. intros _. by eexists.
Qed.

(** ** The second revision *)


















(** ** Alerts and the tickets file do not depend on each other *)

Lemma after_jobs_same_tickets w1 w2 gate1 gate2 recipient1 recipient2 jobs s1 s2 :
  clock w1 = clock w2 →
  time_reads s1 = time_reads s2 →
  tickets_file s1 = tickets_file s2 →
  (after_jobs w1 gate1 recipient1 jobs s1).1 = (after_jobs w2 gate2 recipient2 jobs s2).1 ∧
  tickets_file (after_jobs w1 gate1 recipient1 jobs s1).2
  = tickets_file (after_jobs w2 gate2 recipient2 jobs s2).2.
Proof.
  intros Hclock. revert s1 s2.
  induction jobs as [|[row issue] jobs IH]; intros s1 s2 Ht Hf; [done|].
  rewrite !after_jobs_cons. cbn [fst snd]. rewrite Hclock, Ht.
  destruct (IH (ticketed gate1 recipient1
                  (ticket_of (clock w2 (time_reads s2)) row issue) s1)
               (ticketed gate2 recipient2
                  (ticket_of (clock w2 (time_reads s2)) row issue) s2))
    as [Hts Hfile]; [simpl; by rewrite Ht|simpl; by rewrite Hf|].
  by rewrite Hts, Hfile.
Qed.

(** X15: Sending alerts has no bearing on the tickets: two worlds with the
    same clock, whatever their mail settings, their switch for alerts and
    the answers of their SMTP server, and whatever the checkbox and the
    recipient, give the same tickets and the same tickets file for the
    same upload, in the first and in the third revision. *)
Theorem X15_tickets_independent_of_alerts w1 w2 T alerts1 alerts2 recipient1 recipient2
    df s :
  wf_frame df →
  has_columns ["Complaint_ID"; "Message"; "Supplier"] df →
  clock w1 = clock w2 →
  (∃ tickets s1 s2,
     V1.run w1 T alerts1 recipient1 df s = (Returns tickets, s1) ∧
     V1.run w2 T alerts2 recipient2 df s = (Returns tickets, s2) ∧
     tickets_file s1 = tickets_file s2) ∧
  (∃ tickets s1 s2,
     V3.run w1 T alerts1 recipient1 df s = (Returns tickets, s1) ∧
     V3.run w2 T alerts2 recipient2 df s = (Returns tickets, s2) ∧
     tickets_file s1 = tickets_file s2).
Proof.
  intros Hwf Hcols Hclock. split.
  - eexists _, _, _. split; [by apply V1_run_spec|].
    rewrite V1_run_spec by done. cbv zeta.
    edestruct (after_jobs_same_tickets w1 w2) as [Hts Hfile]; [done|done|done|].
    rewrite Hts. split; [reflexivity|]. exact Hfile.
  - eexists _, _, _. split; [by apply V3_run_spec|].
    rewrite V3_run_spec by done. cbv zeta.
    edestruct (after_jobs_same_tickets w1 w2) as [Hts Hfile]; [done|done|done|].
    rewrite Hts. split; [reflexivity|]. exact Hfile.
Qed.

Lemma X15_tickets_independent_of_alerts_witness :
  ∃ tickets s1 s2,
    V1.run quiet_world 1 false "qa@example.com" acme_frame fresh_state
    = (Returns tickets, s1) ∧
    V1.run refusing_world 1 true "ops@example.com" acme_frame fresh_state
    = (Returns tickets, s2) ∧
    tickets_file s1 = tickets_file s2.
Proof.
  destruct (X15_tickets_independent_of_alerts quiet_world refusing_world 1 false true
              "qa@example.com" "ops@example.com" acme_frame fresh_state
              acme_frame_wf acme_frame_columns eq_refl) as [H _].
  exact H.
Defined.

(** ** Reading the file after a run *)



